(** * Currency converter: rate resolution, conversion engine, retrier and
      circuit breaker

    A shallow embedding of [src/app.service.ts] (class [AppService], the
    version with the conversion cache) and of the [CurrencyApiService]
    class, followed by the properties of the specification checked against
    it.

    JavaScript [number]s are IEEE 754 binary64 values: rates, amounts and
    timestamps are primitive [float]s.  Currency codes are the ISO 4217
    numeric identifiers and are kept as integers ([Z]); counters, HTTP
    statuses and millisecond durations are integers as well. *)

From Stdlib Require Import ZArith List String Ascii Bool Lia Floats.
Import ListNotations.

Local Open Scope Z_scope.

(** ** JavaScript numbers *)

Module JS.

(** [ToBoolean] on a number: [0], [-0] and [NaN] are falsy. *)
Definition truthy (x : float) : bool :=
  negb (PrimFloat.is_nan x || PrimFloat.is_zero x).

(** An optional number field ([number | undefined]). *)
Definition optnum := option float.

(** [a || b] where [a] is an optional number. *)
Definition or_else (a b : optnum) : optnum :=
  match a with
  | Some x => if truthy x then Some x else b
  | None => b
  end.

(** [a || d] where [d] is a number literal. *)
Definition or_default (a : optnum) (d : float) : float :=
  match a with
  | Some x => if truthy x then x else d
  | None => d
  end.

(** [a ?? b]: only [undefined] falls through. *)
Definition nullish (a b : optnum) : optnum :=
  match a with
  | Some x => Some x
  | None => b
  end.

(** [Math.max(a, b)]: [NaN] if either argument is [NaN]; [+0] is larger
    than [-0]. *)
Definition Math_max (a b : float) : float :=
  if PrimFloat.is_nan a || PrimFloat.is_nan b then PrimFloat.nan
  else if PrimFloat.ltb a b then b
  else if PrimFloat.ltb b a then a
  else if PrimFloat.get_sign a then b else a.

(** The mathematical integer [n] of [Number.prototype.toFixed] for four
    fraction digits: the integer closest to [m * 2^e * 10^4], the larger
    one on a tie. *)
Definition scaled4 (m : positive) (e : Z) : Z :=
  match e with
  | Zneg p => (2 * (Zpos m * 10000) + 2 ^ Zpos p) / (2 * 2 ^ Zpos p)
  | _ => Zpos m * 10000 * 2 ^ e
  end.

(** The binary64 value nearest to [n / 10^4], as [Number] reads the
    decimal string back. *)
Definition of_decimal4 (n : Z) : float :=
  match n with
  | Zpos p =>
      SF2Prim (SFdiv prec emax (S754_finite false p 0)
                     (S754_finite false 10000 0))
  | _ => PrimFloat.zero
  end.

(** [Number(x.toFixed(4))].  [toFixed] prints [NaN] and the infinities by
    name and values of magnitude at least [10^21] in exponential form, all
    of which [Number] reads back unchanged; [-0] prints as ["0.0000"]. *)
Definition toFixed4 (x : float) : float :=
  match Prim2SF x with
  | S754_nan => PrimFloat.nan
  | S754_infinity _ => x
  | S754_zero _ => PrimFloat.zero
  | S754_finite s m e =>
      if PrimFloat.leb 1e21 (PrimFloat.abs x) then x
      else
        let r := of_decimal4 (scaled4 m e) in
        if s then PrimFloat.opp r else r
  end.

End JS.

(** ** Errors

    Every failure in the source is an [HttpException] carrying a message and
    an HTTP status; one constructor per [throw] site. *)

Inductive HttpException : Type :=
| InvalidAmount                       (* convert: amount guard *)
| UnsupportedCurrency (symbol : string) (* convert: no numeric code *)
| RateNotFound (src dst : string)     (* convert: findRate gave null *)
| IncompleteRateData                  (* getRequiredRate *)
| CircuitOpen                         (* fetchWithCircuitBreaker, fail fast *)
| ProviderError (statusText : string) (status : Z) (* fetchWithRetry, 4xx *)
| RetriesExhausted                    (* fetchWithRetry, last attempt failed *)
| FetchFailed.                        (* fetchWithRetry, after the loop *)

Module HttpStatus.
Definition BAD_REQUEST : Z := 400.
Definition NOT_FOUND : Z := 404.
Definition SERVICE_UNAVAILABLE : Z := 503.
End HttpStatus.

Definition getStatus (e : HttpException) : Z :=
  match e with
  | InvalidAmount => HttpStatus.BAD_REQUEST
  | UnsupportedCurrency _ => HttpStatus.BAD_REQUEST
  | RateNotFound _ _ => HttpStatus.NOT_FOUND
  | IncompleteRateData => HttpStatus.SERVICE_UNAVAILABLE
  | CircuitOpen => HttpStatus.SERVICE_UNAVAILABLE
  | ProviderError _ status => status
  | RetriesExhausted => HttpStatus.SERVICE_UNAVAILABLE
  | FetchFailed => HttpStatus.SERVICE_UNAVAILABLE
  end.

Inductive Result (A : Type) : Type :=
| Ok (a : A)
| Throw (e : HttpException).
Arguments Ok {A} a.
Arguments Throw {A} e.

(** ** Rate records and the base currency *)

Record MonobankRate : Type := mkRate {
  currencyCodeA : Z;
  currencyCodeB : Z;
  date : float;
  rateBuy : JS.optnum;
  rateSell : JS.optnum;
  rateCross : JS.optnum
}.

(** Modelled from the spec: the constant [UAH_CODE] of
    [src/constants/currency-codes], which is not among the sources; the base
    currency is UAH, whose numeric code the tests give as 980. *)
Definition UAH_CODE : Z := 980.

(** ** The rate resolver: [AppService.findRate] *)

(** The predicate of the three [rates.find] calls. *)
Definition quotedInUah (code : Z) (r : MonobankRate) : bool :=
  (currencyCodeA r =? code) && (currencyCodeB r =? UAH_CODE).

Definition findRate (rates : list MonobankRate) (fromCode toCode : Z)
  : option MonobankRate :=
  if (fromCode =? UAH_CODE) || (toCode =? UAH_CODE) then
    let foreignCode := if fromCode =? UAH_CODE then toCode else fromCode in
    find (quotedInUah foreignCode) rates
  else
    let fromToUah := find (quotedInUah fromCode) rates in
    let toToUah := find (quotedInUah toCode) rates in
    match fromToUah, toToUah with
    | Some f, Some t =>
        let crossRate :=
          (JS.or_default (JS.or_else (rateBuy f) (rateCross f)) 1
           / JS.or_default (JS.or_else (rateSell t) (rateCross t)) 1)%float in
        Some {| currencyCodeA := fromCode;
                currencyCodeB := toCode;
                date := JS.Math_max (date f) (date t);
                rateBuy := None;
                rateSell := None;
                rateCross := Some crossRate |}
    | _, _ => None
    end.

(** ** The conversion engine *)

Inductive RateType : Type := buy | sell | cross.

(** [AppService.getRequiredRate]. *)
Definition getRequiredRate (rate : MonobankRate) (type : RateType)
  : Result float :=
  let value :=
    match type with
    | buy => JS.nullish (rateBuy rate) (rateCross rate)
    | sell => JS.nullish (rateSell rate) (rateCross rate)
    | cross => rateCross rate
    end in
  match value with
  | Some v => if JS.truthy v then Ok v else Throw IncompleteRateData
  | None => Throw IncompleteRateData
  end.

(** [AppService.calculateConversion]. *)
Definition calculateConversion (amount : float) (rate : MonobankRate)
    (fromCode toCode : Z) : Result float :=
  if toCode =? UAH_CODE then
    match getRequiredRate rate buy with
    | Ok r => Ok (amount * r)%float
    | Throw e => Throw e
    end
  else if fromCode =? UAH_CODE then
    match getRequiredRate rate sell with
    | Ok r => Ok (amount / r)%float
    | Throw e => Throw e
    end
  else
    match getRequiredRate rate cross with
    | Ok r => Ok (amount * r)%float
    | Throw e => Throw e
    end.

(** ** The world the two services run in *)

(** What one call of [httpService.get] comes back with: the parsed body, or
    an [AxiosError] whose [response?.status] may be missing (network error,
    timeout). *)
Inductive AxiosOutcome : Type :=
| Response (data : list MonobankRate)
| AxiosError (status : option Z) (statusText : string).

(** [ConvertResponseDto]. *)
Record ConvertResponseDto : Type := mkResponse {
  from : string;
  to : string;
  amount : float;
  result : float
}.

(** The [amount] argument at run time: [typeof amount] is ['number'] or it
    is not. *)
Inductive AmountArg : Type :=
| Num (x : float)
| NotANumberType.

(** Effects that leave the process. *)
Inductive Event : Type :=
| HttpGet
| Sleep (ms : Z).

(** The configuration and the collaborators.  [CURRENCY_CODES] is the table
    of [src/constants/currency-codes], which is not among the sources, and
    [upstream n] is what the provider answers to the [n]-th transport call
    of the process, with the time the call takes. *)
Record Env : Type := mkEnv {
  CURRENCY_CODES : string -> option Z;
  failureThreshold : Z;
  circuitTimeout : Z;
  cacheTtl : Z;
  conversionCacheTtl : Z;
  upstream : nat -> AxiosOutcome * Z
}.

(** Modelled from the spec: the cache store (cache-manager over Redis) is an
    external collaborator; an entry is a value with the time it expires at.
    The key ['monobank_rates'] and the keys ['conversion:FROM:TO:amount']
    never coincide, so the two namespaces are kept as two fields. *)
Record CacheStore : Type := mkCache {
  ratesEntry : option (list MonobankRate * Z);
  conversionEntries : list ((string * string * float) * ConvertResponseDto * Z)
}.

Record World : Type := mkWorld {
  clock : Z;                           (* Date.now() *)
  httpCalls : nat;                     (* transport calls made so far *)
  trace : list Event;                  (* oldest first *)
  failureCount : Z;
  lastFailureTime : option Z;
  circuitOpen : bool;
  cache : CacheStore
}.

(** A computation of the services: it may throw and it changes the world. *)
Definition M (A : Type) : Type := World -> Result A * World.

Definition ret {A} (a : A) : M A := fun w => (Ok a, w).
Definition throw {A} (e : HttpException) : M A := fun w => (Throw e, w).
Definition bind {A B} (m : M A) (k : A -> M B) : M B :=
  fun w =>
    match m w with
    | (Ok a, w') => k a w'
    | (Throw e, w') => (Throw e, w')
    end.

Notation "x <- m ;; k" := (bind m (fun x => k))
  (at level 61, m at next level, right associativity).
Notation "m ;;; k" := (bind m (fun _ => k))
  (at level 61, right associativity).

(** *** Primitive effects *)

Definition httpGet (env : Env) : M AxiosOutcome :=
  fun w =>
    let '(outcome, took) := upstream env (httpCalls w) in
    (Ok outcome,
     mkWorld (clock w + Z.max 0 took) (S (httpCalls w)) (trace w ++ [HttpGet])
             (failureCount w) (lastFailureTime w) (circuitOpen w) (cache w)).

Definition sleep (ms : Z) : M unit :=
  fun w =>
    (Ok tt,
     mkWorld (clock w + Z.max 0 ms) (httpCalls w) (trace w ++ [Sleep ms])
             (failureCount w) (lastFailureTime w) (circuitOpen w) (cache w)).

Definition setBreaker (count : Z) (last : option Z) (open : bool) (w : World)
  : World :=
  mkWorld (clock w) (httpCalls w) (trace w) count last open (cache w).

Definition setCache (c : CacheStore) (w : World) : World :=
  mkWorld (clock w) (httpCalls w) (trace w)
          (failureCount w) (lastFailureTime w) (circuitOpen w) c.

(** *** The cache *)

Definition toUpperChar (c : ascii) : ascii :=
  let n := N_of_ascii c in
  if ((97 <=? n) && (n <=? 122))%N then ascii_of_N (n - 32) else c.

(** [String.prototype.toUpperCase] on ASCII symbols, which the ISO 4217
    symbols of the currency table are: the letters a to z are mapped, every
    other byte is left as it is.  The Unicode mappings of the real function
    (U+017F to S, for one) are not modelled, so a symbol with such a
    character is outside this model. *)
Fixpoint toUpperCase (s : string) : string :=
  match s with
  | EmptyString => EmptyString
  | String c s' => String (toUpperChar c) (toUpperCase s')
  end.

(** Two amounts print the same in the cache key. *)
Definition sameAmountText (a b : float) : bool :=
  PrimFloat.eqb a b || (PrimFloat.is_nan a && PrimFloat.is_nan b).

Definition sameConversionKey (k1 k2 : string * string * float) : bool :=
  let '(f1, t1, a1) := k1 in
  let '(f2, t2, a2) := k2 in
  String.eqb f1 f2 && String.eqb t1 t2 && sameAmountText a1 a2.

(** [getConversionCacheKey]. *)
Definition getConversionCacheKey (from to : string) (amount : float)
  : string * string * float :=
  (toUpperCase from, toUpperCase to, amount).

Definition cacheGetRates : M (option (list MonobankRate)) :=
  fun w =>
    match ratesEntry (cache w) with
    | Some (rates, expires) =>
        if clock w <? expires then (Ok (Some rates), w) else (Ok None, w)
    | None => (Ok None, w)
    end.

Definition cacheSetRates (rates : list MonobankRate) (ttl : Z) : M unit :=
  fun w =>
    (Ok tt,
     setCache (mkCache (Some (rates, clock w + ttl))
                       (conversionEntries (cache w))) w).

Definition cacheGetConversion (key : string * string * float)
  : M (option ConvertResponseDto) :=
  fun w =>
    match find (fun e => sameConversionKey (fst (fst e)) key
                         && (clock w <? snd e))
               (conversionEntries (cache w)) with
    | Some (_, dto, _) => (Ok (Some dto), w)
    | None => (Ok None, w)
    end.

Definition cacheSetConversion (key : string * string * float)
    (dto : ConvertResponseDto) (ttl : Z) : M unit :=
  fun w =>
    (Ok tt,
     setCache (mkCache (ratesEntry (cache w))
                       ((key, dto, clock w + ttl)
                          :: conversionEntries (cache w))) w).

(** ** [CurrencyApiService] *)

(** The test of the 4xx branch:
    [response?.status && status >= 400 && status < 500]. *)
Definition isClientError (status : option Z) : bool :=
  match status with
  | Some st => negb (st =? 0) && (400 <=? st) && (st <? 500)
  | None => false
  end.

(** The loop of [fetchWithRetry]; [left] is [retries - attempt + 1], the
    number of iterations the loop condition [attempt <= retries] still
    allows. *)
Fixpoint fetchLoop (env : Env) (left : nat) (retries delay attempt : Z)
  : M (list MonobankRate) :=
  match left with
  | O => throw FetchFailed
  | S left' =>
      outcome <- httpGet env ;;
      match outcome with
      | Response data => ret data
      | AxiosError status statusText =>
          if isClientError status then
            throw (ProviderError statusText
                     (match status with Some st => st | None => 0 end))
          else if attempt =? retries then
            throw RetriesExhausted
          else
            let backoffDelay := delay * 2 ^ (attempt - 1) in
            sleep backoffDelay ;;;
            fetchLoop env left' retries delay (attempt + 1)
      end
  end.

Definition fetchWithRetry (env : Env) (retries delay : Z)
  : M (list MonobankRate) :=
  fetchLoop env (Z.to_nat retries) retries delay 1.

(** [handleCircuitBreakerFailure]. *)
Definition handleCircuitBreakerFailure (env : Env) (w : World) : World :=
  let count := failureCount w + 1 in
  let open := if failureThreshold env <=? count then true else circuitOpen w in
  setBreaker count (Some (clock w)) open w.

(** [this.lastFailureTime || 0]. *)
Definition lastFailureOrZero (w : World) : Z :=
  match lastFailureTime w with
  | Some t => if t =? 0 then 0 else t
  | None => 0
  end.

(** The guard at the head of [fetchWithCircuitBreaker]. *)
Definition rejects (env : Env) (w : World) : bool :=
  circuitOpen w && (clock w - lastFailureOrZero w <? circuitTimeout env).

Definition fetchWithCircuitBreaker (env : Env) : M (list MonobankRate) :=
  fun w =>
    if rejects env w then (Throw CircuitOpen, w)
    else
      match fetchWithRetry env 3 1000 w with
      | (Ok rates, w') => (Ok rates, setBreaker 0 None false w')
      | (Throw error, w') => (Throw error, handleCircuitBreakerFailure env w')
      end.

Definition getExchangeRates (env : Env) : M (list MonobankRate) :=
  cachedRates <- cacheGetRates ;;
  match cachedRates with
  | Some rates => ret rates
  | None =>
      rates <- fetchWithCircuitBreaker env ;;
      cacheSetRates rates (cacheTtl env * 1000) ;;;
      ret rates
  end.

(** [getCurrencyCode]. *)
Definition getCurrencyCode (env : Env) (currency : string) : option Z :=
  CURRENCY_CODES env (toUpperCase currency).

(** [!code] on [number | undefined]. *)
Definition noCode (code : option Z) : bool :=
  match code with
  | Some c => c =? 0
  | None => true
  end.

Definition codeOf (code : option Z) : Z :=
  match code with
  | Some c => c
  | None => 0
  end.

(** ** [AppService.convert] *)

Definition convert (env : Env) (from to : string) (amount : AmountArg)
  : M ConvertResponseDto :=
  match amount with
  | NotANumberType => throw InvalidAmount
  | Num amount =>
      if PrimFloat.leb amount 0 then throw InvalidAmount
      else
        let fromCode := getCurrencyCode env from in
        let toCode := getCurrencyCode env to in
        if noCode fromCode then throw (UnsupportedCurrency from)
        else if noCode toCode then throw (UnsupportedCurrency to)
        else
          let cacheKey := getConversionCacheKey from to amount in
          cachedResult <- cacheGetConversion cacheKey ;;
          match cachedResult with
          | Some response => ret response
          | None =>
              rates <- getExchangeRates env ;;
              match findRate rates (codeOf fromCode) (codeOf toCode) with
              | None => throw (RateNotFound from to)
              | Some rate =>
                  match calculateConversion amount rate
                          (codeOf fromCode) (codeOf toCode) with
                  | Throw e => throw e
                  | Ok result =>
                      let response :=
                        mkResponse (toUpperCase from) (toUpperCase to) amount
                                   (JS.toFixed4 result) in
                      cacheSetConversion cacheKey response
                                         (conversionCacheTtl env * 1000) ;;;
                      ret response
                  end
              end
          end
  end.

(** ** The fixture of the test suites *)

Definition mockRates : list MonobankRate :=
  [ mkRate 840 980 1704326400 (Some 37.5%float) (Some 38%float) None;
    mkRate 978 980 1704326400 (Some 41%float) (Some 41.5%float) None;
    mkRate 826 980 1704326400 (Some 47.5%float) (Some 48%float) None;
    mkRate 756 980 1704326400 None None (Some 43%float) ].

Definition mockCodes (s : string) : option Z :=
  if String.eqb s "USD" then Some 840
  else if String.eqb s "EUR" then Some 978
  else if String.eqb s "UAH" then Some 980
  else if String.eqb s "GBP" then Some 826
  else if String.eqb s "CHF" then Some 756
  else None.

Definition initialWorld : World :=
  mkWorld 0 0 [] 0 None false (mkCache None []).

Definition mockEnv (answers : nat -> AxiosOutcome * Z) : Env :=
  mkEnv mockCodes 3 1000 300 300 answers.

Definition alwaysUp : nat -> AxiosOutcome * Z :=
  fun _ => (Response mockRates, 0).
Definition alwaysDown : nat -> AxiosOutcome * Z :=
  fun _ => (AxiosError None "Network error", 0).

(** ** The specification's wording, for comparison with the code *)

(** "A record where [baseCurrencyCode == code] and [quoteCurrencyCode] is the
    base currency of the system." *)
Definition isLegOf (code : Z) (r : MonobankRate) : Prop :=
  currencyCodeA r = code /\ currencyCodeB r = UAH_CODE.

(** "The first match in snapshot order, or not found if none." *)
Definition firstLegOf (code : Z) (rates : list MonobankRate)
    (found : option MonobankRate) : Prop :=
  match found with
  | Some r =>
      exists before after,
        rates = before ++ r :: after /\ isLegOf code r /\
        Forall (fun x => ~ isLegOf code x) before
  | None => Forall (fun x => ~ isLegOf code x) rates
  end.

(** "Rounded to 4 decimal places."  For a finite value of magnitude
    [m * 2^e], the integer [n] is the number of ten-thousandths nearest to
    it, the larger one on a tie: [n - 1/2 <= m * 2^e * 10^4 < n + 1/2],
    written without fractions. *)
Definition nearestTenThousandths (m : positive) (e : Z) (n : Z) : Prop :=
  2 * n * 2 ^ Z.max (- e) 0 - 2 ^ Z.max (- e) 0
  <= 2 * (Zpos m * 10000 * 2 ^ Z.max e 0)
  < 2 * n * 2 ^ Z.max (- e) 0 + 2 ^ Z.max (- e) 0.

(** The number that is [n] ten-thousandths: the quotient of the integers
    [n] and [10^4] as IEEE 754 division rounds it to binary64 (the Standard
    Library's [SFdiv] on the two exact integers). *)
Definition tenThousandths (n : Z) : float :=
  match n with
  | Zpos p =>
      SF2Prim (SFdiv prec emax (S754_finite false p Z0)
                     (S754_finite false 10000 Z0))
  | _ => PrimFloat.zero
  end.

(** [rounded] is [value] rounded to four decimal places: a whole number of
    ten-thousandths, the nearest to [value], with the sign of [value].
    Values of magnitude [10^21] and more (integers all) and the infinities
    are left as they are, [NaN] stays [NaN] and a zero becomes [+0]. *)
Definition roundedTo4Places (value rounded : float) : Prop :=
  match Prim2SF value with
  | S754_nan => rounded = PrimFloat.nan
  | S754_infinity _ => rounded = value
  | S754_zero _ => rounded = PrimFloat.zero
  | S754_finite s m e =>
      if PrimFloat.leb 1e21 (PrimFloat.abs value) then rounded = value
      else
        exists n : Z,
          nearestTenThousandths m e n
          /\ rounded
             = (if s then PrimFloat.opp (tenThousandths n)
                else tenThousandths n)
  end.

(** "For buy, [rate.buyRate] if present else [rate.crossRate]; for sell,
    [rate.sellRate] if present else [rate.crossRate]; for cross,
    [rate.crossRate] only." *)
Definition selectedAsSpecified (rate : MonobankRate) (kind : RateType)
  : JS.optnum :=
  match kind with
  | buy =>
      match rateBuy rate with Some b => Some b | None => rateCross rate end
  | sell =>
      match rateSell rate with Some s => Some s | None => rateCross rate end
  | cross => rateCross rate
  end.

(** "[a ?? b ?? 1]": the first of the two fields that is present, else 1. *)
Definition presentOrOne (a b : JS.optnum) : float :=
  match a, b with
  | Some x, _ => x
  | None, Some y => y
  | None, None => 1%float
  end.

(** "[crossRate = (source.buyRate ?? source.crossRate ?? 1) /
    (target.sellRate ?? target.crossRate ?? 1)]". *)
Definition crossRateAsSpecified (source target : MonobankRate) : float :=
  (presentOrOne (rateBuy source) (rateCross source)
   / presentOrOne (rateSell target) (rateCross target))%float.

(** What the code takes from a leg: the first of the two fields that is
    present and neither zero nor [NaN], else 1. *)
Definition usableOrOne (a b : JS.optnum) : float :=
  JS.or_default (JS.or_else a b) 1.

Definition buySide (leg : MonobankRate) : float :=
  usableOrOne (rateBuy leg) (rateCross leg).
Definition sellSide (leg : MonobankRate) : float :=
  usableOrOne (rateSell leg) (rateCross leg).

(** Every rate field the record carries is a usable number: neither zero
    nor [NaN]. *)
Definition populatedFieldsUsable (r : MonobankRate) : Prop :=
  forall v,
    rateBuy r = Some v \/ rateSell r = Some v \/ rateCross r = Some v ->
    JS.truthy v = true.

(** A call of [convert] that passes the guards, misses the conversion cache
    and obtains the snapshot [rates], leaving the world [w1]. *)
Definition reachesResolver (env : Env) (from to : string) (amount : float)
    (fromCode toCode : Z) (w : World) (rates : list MonobankRate)
    (w1 : World) : Prop :=
  PrimFloat.leb amount 0 = false
  /\ (getCurrencyCode env from = Some fromCode /\ fromCode <> 0)
  /\ (getCurrencyCode env to = Some toCode /\ toCode <> 0)
  /\ fst (cacheGetConversion (getConversionCacheKey from to amount) w) = Ok None
  /\ getExchangeRates env w = (Ok rates, w1).

(** The response [convert] builds, and the world after it is cached. *)
Definition responseOf (from to : string) (amount value : float)
  : ConvertResponseDto :=
  mkResponse (toUpperCase from) (toUpperCase to) amount (JS.toFixed4 value).

Definition cachedIn (env : Env) (from to : string) (amount value : float)
    (w1 : World) : World :=
  snd (cacheSetConversion (getConversionCacheKey from to amount)
         (responseOf from to amount value) (conversionCacheTtl env * 1000) w1).

(** Converting [x] from [a] to [b] and the result back, the second call
    starting in the world the first one left: the two results and the
    number of transport calls made in all. *)
Definition roundTrip (env : Env) (a b : string) (x : float) (w : World)
  : option (float * float * nat) :=
  match convert env a b (Num x) w with
  | (Ok there, w1) =>
      match convert env b a (Num (result there)) w1 with
      | (Ok back, w2) => Some (result there, result back, httpCalls w2)
      | (Throw _, _) => None
      end
  | (Throw _, _) => None
  end.

(** An attempt after which the loop of [fetchWithRetry] goes on, if the
    attempt budget allows: a failure that is not a 4xx. *)
Definition retryable (o : AxiosOutcome) : bool :=
  match o with
  | Response _ => false
  | AxiosError status _ => negb (isClientError status)
  end.

(** What the provider answers to the [i]-th transport call counted from the
    world [w]. *)
Definition outcomeAt (env : Env) (w : World) (i : nat) : AxiosOutcome :=
  fst (upstream env (httpCalls w + i)).

(** The events of [k] failed attempts in a row, the first of them being
    attempt number [attempt]: a transport call, then the wait
    [delay * 2^(attempt - 1)], and so on. *)
Fixpoint failedAttempts (delay attempt : Z) (k : nat) : list Event :=
  match k with
  | O => []
  | S k' =>
      HttpGet :: Sleep (delay * 2 ^ (attempt - 1))
        :: failedAttempts delay (attempt + 1) k'
  end.

(** What [fetchWithRetry] surfaces when the attempt with outcome [o] is its
    last one. *)
Definition surfaced (o : AxiosOutcome) : Result (list MonobankRate) :=
  match o with
  | Response data => Ok data
  | AxiosError status statusText =>
      if isClientError status then
        Throw (ProviderError statusText
                 (match status with Some st => st | None => 0 end))
      else Throw RetriesExhausted
  end.

(** The breaker is open only after the threshold was reached, and then the
    time of the last failure is on record. *)
Definition breakerConsistent (env : Env) (w : World) : Prop :=
  circuitOpen w = true ->
  failureThreshold env <= failureCount w
  /\ exists t, lastFailureTime w = Some t.

(** ** Inputs the properties are evaluated at *)

Definition usdLeg : MonobankRate :=
  mkRate 840 980 1704326400 (Some 37.5%float) (Some 38%float) None.
Definition eurLeg : MonobankRate :=
  mkRate 978 980 1704326400 (Some 41%float) (Some 41.5%float) None.

(** A USD leg whose buy rate is zero. *)
Definition usdZeroBuy : MonobankRate :=
  mkRate 840 980 1704326400 (Some 0%float) (Some 38%float) (Some 40%float).
(** A USD leg whose buy rate is negative. *)
Definition usdNegativeBuy : MonobankRate :=
  mkRate 840 980 1704326400 (Some (-1)%float) (Some 38%float) None.
(** A USD leg with a zero buy rate and no cross rate. *)
Definition usdZeroBuyNoCross : MonobankRate :=
  mkRate 840 980 1704326400 (Some 0%float) (Some 38%float) None.

Definition answering (rates : list MonobankRate) : nat -> AxiosOutcome * Z :=
  fun _ => (Response rates, 0).

(** The world after three outer calls in a row against a provider that is
    down, with the threshold of the test suite (3): the circuit is open. *)
Definition afterThreeFailures : World :=
  let env := mockEnv alwaysDown in
  snd (fetchWithCircuitBreaker env
         (snd (fetchWithCircuitBreaker env
                 (snd (fetchWithCircuitBreaker env initialWorld))))).

(** ** The rest of the two services *)

(** Time passing between two calls. *)
Definition advance (dt : Z) (w : World) : World :=
  mkWorld (clock w + dt) (httpCalls w) (trace w)
          (failureCount w) (lastFailureTime w) (circuitOpen w) (cache w).

(** [CurrencyApiService.invalidateCache]: [cacheManager.del(CACHE_KEY)]. *)
Definition CurrencyApiService_invalidateCache : M unit :=
  fun w => (Ok tt, setCache (mkCache None (conversionEntries (cache w))) w).

(** [cacheManager.reset()]: the store is emptied. *)
Definition cacheReset : M unit :=
  fun w => (Ok tt, setCache (mkCache None []) w).

(** [AppService.invalidateCache]. *)
Definition AppService_invalidateCache : M unit :=
  cacheReset ;;; CurrencyApiService_invalidateCache.

(** [calculateConversion] as the version of [AppService] without the
    conversion cache has it: every missing or falsy rate falls back, in the
    end to 1, and nothing is thrown. *)
Definition calculateConversionV1 (amount : float) (rate : MonobankRate)
    (fromCode toCode : Z) : float :=
  if toCode =? UAH_CODE then
    (amount
     * JS.or_default (JS.or_else (rateBuy rate) (rateCross rate)) 1)%float
  else if fromCode =? UAH_CODE then
    (amount
     / JS.or_default (JS.or_else (rateSell rate) (rateCross rate)) 1)%float
  else
    (amount * JS.or_default (rateCross rate) 1)%float.

(** What a client of the two services can do, and time passing. *)
Inductive Call : Type :=
| CallConvert (from to : string) (amount : AmountArg)
| CallGetExchangeRates
| CallInvalidateCache                  (* AppService *)
| CallInvalidateRates                  (* CurrencyApiService *)
| Wait (dt : Z).

Definition step (env : Env) (w : World) (c : Call) : World :=
  match c with
  | CallConvert from to amount => snd (convert env from to amount w)
  | CallGetExchangeRates => snd (getExchangeRates env w)
  | CallInvalidateCache => snd (AppService_invalidateCache w)
  | CallInvalidateRates => snd (CurrencyApiService_invalidateCache w)
  | Wait dt => advance (Z.max 0 dt) w
  end.

(** The world after a sequence of calls, made one after another. *)
Definition run (env : Env) (calls : list Call) (w : World) : World :=
  fold_left (step env) calls w.

(** The provider is down from the world [w] on: every transport call comes
    back with an error, of whatever status. *)
Definition providerDown (env : Env) (w : World) : Prop :=
  forall i, exists status statusText,
    outcomeAt env w i = AxiosError status statusText.

(** What holds of the breaker in every world the services can get into. *)
Definition breakerInvariant (env : Env) (w : World) : Prop :=
  0 <= failureCount w
  /\ (circuitOpen w = true <-> failureThreshold env <= failureCount w)
  /\ (circuitOpen w = true ->
      exists t, lastFailureTime w = Some t /\ t <= clock w).

(** The statuses [convert] can fail with. *)
Definition isClientStatus (st : Z) : Prop := 400 <= st < 500.

(** Two worlds that differ in the cache at most. *)
Definition sameButCache (w1 w2 : World) : Prop :=
  clock w1 = clock w2
  /\ httpCalls w1 = httpCalls w2
  /\ trace w1 = trace w2
  /\ failureCount w1 = failureCount w2
  /\ lastFailureTime w1 = lastFailureTime w2
  /\ circuitOpen w1 = circuitOpen w2.

(** Every cached conversion carries the symbols of its key. *)
Definition cacheEchoes (w : World) : Prop :=
  Forall (fun entry : (string * string * float) * ConvertResponseDto * Z =>
            from (snd (fst entry)) = fst (fst (fst (fst entry)))
            /\ to (snd (fst entry)) = snd (fst (fst (fst entry))))
         (conversionEntries (cache w)).

(** * Properties *)

(** ** Auxiliary facts *)

Lemma quotedInUah_isLegOf (code : Z) (r : MonobankRate) :
  quotedInUah code r = true <-> isLegOf code r.
Proof.
  unfold quotedInUah, isLegOf.
  rewrite andb_true_iff, !Z.eqb_eq. tauto.
Qed.

Lemma quotedInUah_not_leg (code : Z) (r : MonobankRate) :
  quotedInUah code r = false <-> ~ isLegOf code r.
Proof.
  rewrite <- quotedInUah_isLegOf.
  destruct (quotedInUah code r); split; intro H; congruence.
Qed.

(** [Array.prototype.find] returns the first element the predicate holds
    of. *)
Lemma find_firstLegOf (code : Z) (rates : list MonobankRate) :
  firstLegOf code rates (find (quotedInUah code) rates).
Proof.
  induction rates as [|r rates IH]; simpl.
  - constructor.
  - destruct (quotedInUah code r) eqn:Hr.
    + apply quotedInUah_isLegOf in Hr.
      exists [], rates. split; [reflexivity|]. split; [exact Hr|constructor].
    + apply quotedInUah_not_leg in Hr.
      destruct (find (quotedInUah code) rates) as [r'|]; simpl in *.
      * destruct IH as (before & after & -> & Hleg & Hnone).
        exists (r :: before), after.
        split; [reflexivity|]. split; [exact Hleg|].
        constructor; assumption.
      * constructor; assumption.
Qed.

Lemma find_after_non_legs (code : Z) (before after : list MonobankRate)
    (r : MonobankRate) :
  Forall (fun x => ~ isLegOf code x) before ->
  isLegOf code r ->
  find (quotedInUah code) (before ++ r :: after) = Some r.
Proof.
  intros Hbefore Hr.
  induction Hbefore as [|x before Hx _ IH]; simpl.
  - apply quotedInUah_isLegOf in Hr. now rewrite Hr.
  - apply quotedInUah_not_leg in Hx. now rewrite Hx.
Qed.

Lemma find_no_leg (code : Z) (rates : list MonobankRate) :
  Forall (fun x => ~ isLegOf code x) rates ->
  find (quotedInUah code) rates = None.
Proof.
  induction 1 as [|x rates Hx _ IH]; simpl; [reflexivity|].
  apply quotedInUah_not_leg in Hx. now rewrite Hx.
Qed.

Lemma findRate_base (rates : list MonobankRate) (fromCode toCode : Z) :
  fromCode = UAH_CODE \/ toCode = UAH_CODE ->
  findRate rates fromCode toCode =
  find (quotedInUah (if fromCode =? UAH_CODE then toCode else fromCode)) rates.
Proof.
  intros H. unfold findRate.
  replace ((fromCode =? UAH_CODE) || (toCode =? UAH_CODE)) with true;
    [reflexivity|].
  symmetry. apply orb_true_iff. rewrite !Z.eqb_eq. exact H.
Qed.

Lemma findRate_cross (rates : list MonobankRate) (fromCode toCode : Z) :
  fromCode <> UAH_CODE -> toCode <> UAH_CODE ->
  findRate rates fromCode toCode =
  match find (quotedInUah fromCode) rates, find (quotedInUah toCode) rates with
  | Some f, Some t =>
      Some (mkRate fromCode toCode (JS.Math_max (date f) (date t)) None None
                   (Some (buySide f / sellSide t)%float))
  | _, _ => None
  end.
Proof.
  intros Hf Ht. unfold findRate.
  apply Z.eqb_neq in Hf. apply Z.eqb_neq in Ht. rewrite Hf, Ht. reflexivity.
Qed.

(** The integer [toFixed] prints is a nearest one: for a value
    [m / 2^p] it is within one half of [m * 10^4 / 2^p]. *)
Lemma scaled4_nearest (m p : positive) :
  let n := JS.scaled4 m (Zneg p) in
  2 * n * 2 ^ Zpos p - 2 ^ Zpos p <= 2 * (Zpos m * 10000)
  < 2 * n * 2 ^ Zpos p + 2 ^ Zpos p.
Proof.
  cbv zeta. unfold JS.scaled4.
  assert (Hpow : 0 < 2 ^ Zpos p) by (apply Z.pow_pos_nonneg; lia).
  set (P := 2 ^ Zpos p) in *. set (M := Zpos m * 10000).
  pose proof (Z.div_mod (2 * M + P) (2 * P) ltac:(lia)) as Hdiv.
  pose proof (Z.mod_pos_bound (2 * M + P) (2 * P) ltac:(lia)) as Hmod.
  nia.
Qed.

(** Values of the test suites: [toFixed(4)] of 90.36144578313253 is
    90.3614, of a small negative number it is [-0], and an integer is left
    as it is. *)
Lemma toFixed4_examples :
  JS.toFixed4 (100 * (37.5 / 41.5)) = (903614 / 10000)%float
  /\ JS.toFixed4 (1 / 100 * 37.5) = 0.375%float
  /\ JS.toFixed4 (-1 / 1000000) = (-0)%float
  /\ JS.toFixed4 37500000 = 37500000%float
  /\ JS.toFixed4 PrimFloat.infinity = PrimFloat.infinity.
Proof. repeat split; vm_compute; reflexivity. Qed.

(** ** The rate resolver *)

(** C6. If either code is the base currency the resolver returns the first
    record of the snapshot quoting the other code against the base currency,
    or nothing when there is none; if neither is the base currency and one
    of the two legs is missing it returns nothing; a duplicate further down
    the snapshot never replaces the first match, neither as the answer for
    a pair with the base currency nor as a leg of a cross rate. *)
Theorem findRate_first_match (rates : list MonobankRate) (fromCode toCode : Z) :
  let foreignCode := if fromCode =? UAH_CODE then toCode else fromCode in
  (fromCode = UAH_CODE \/ toCode = UAH_CODE ->
   firstLegOf foreignCode rates (findRate rates fromCode toCode))
  /\ (fromCode <> UAH_CODE -> toCode <> UAH_CODE ->
      Forall (fun x => ~ isLegOf fromCode x) rates \/
      Forall (fun x => ~ isLegOf toCode x) rates ->
      findRate rates fromCode toCode = None)
  /\ (forall before r after,
        fromCode = UAH_CODE \/ toCode = UAH_CODE ->
        rates = before ++ r :: after ->
        Forall (fun x => ~ isLegOf foreignCode x) before ->
        isLegOf foreignCode r ->
        findRate rates fromCode toCode = Some r)
  /\ (forall f t,
        fromCode <> UAH_CODE -> toCode <> UAH_CODE ->
        firstLegOf fromCode rates (Some f) ->
        firstLegOf toCode rates (Some t) ->
        findRate rates fromCode toCode
        = Some (mkRate fromCode toCode (JS.Math_max (date f) (date t))
                       None None (Some (buySide f / sellSide t)%float))).
Proof.
  intros foreignCode. split; [|split; [|split]].
  - intros Hbase. rewrite findRate_base by assumption.
    apply find_firstLegOf.
  - intros Hf Ht Hmissing. rewrite findRate_cross by assumption.
    destruct Hmissing as [H|H]; rewrite (find_no_leg _ _ H).
    + reflexivity.
    + destruct (find (quotedInUah fromCode) rates); reflexivity.
  - intros before r after Hbase -> Hbefore Hr.
    rewrite findRate_base by assumption.
    now apply find_after_non_legs.
  - intros f t Hf Ht (bf & af & Hrf & Hlegf & Hbf)
           (bt & aft & Hrt & Hlegt & Hbt).
    rewrite findRate_cross by assumption.
    rewrite Hrf at 1. rewrite (find_after_non_legs _ _ _ _ Hbf Hlegf).
    rewrite Hrt at 1. rewrite (find_after_non_legs _ _ _ _ Hbt Hlegt).
    reflexivity.
Qed.

(** The resolver at the test fixture: USD against UAH finds the USD leg, an
    unknown code finds nothing, and a duplicate USD leg is ignored. *)
Lemma findRate_first_match_witness :
  firstLegOf 840 mockRates (findRate mockRates 840 980)
  /\ findRate mockRates 840 36 = None
  /\ findRate (usdLeg :: usdZeroBuy :: nil) 980 840 = Some usdLeg.
Proof.
  destruct (findRate_first_match mockRates 840 980) as [H1 _].
  destruct (findRate_first_match mockRates 840 36) as [_ [H2 _]].
  destruct (findRate_first_match (usdLeg :: usdZeroBuy :: nil) 980 840)
    as [_ [_ [H3 _]]].
  split; [|split].
  - apply H1. right. reflexivity.
  - apply H2; [discriminate | discriminate |].
    right. unfold mockRates, isLegOf.
    repeat constructor; simpl; intros [H _]; discriminate H.
  - apply (H3 nil usdLeg (usdZeroBuy :: nil)).
    + left. reflexivity.
    + reflexivity.
    + constructor.
    + split; reflexivity.
Defined.

(** ** The conversion engine *)

Lemma positive_passes_guard (a : float) :
  PrimFloat.ltb 0 a = true -> PrimFloat.leb a 0 = false.
Proof.
  rewrite ltb_spec, leb_spec.
  replace (Prim2SF 0) with (S754_zero false) by (vm_compute; reflexivity).
  destruct (Prim2SF a) as [s| s | |s m e]; try destruct s; cbv;
    intro H; congruence.
Qed.

(** [convert] on the path that reaches the resolver. *)
Lemma convert_resolves (env : Env) (from to : string) (a : float)
    (fromCode toCode : Z) (w : World) (rates : list MonobankRate)
    (w1 : World) :
  reachesResolver env from to a fromCode toCode w rates w1 ->
  convert env from to (Num a) w =
  match findRate rates fromCode toCode with
  | None => (Throw (RateNotFound from to), w1)
  | Some rate =>
      match calculateConversion a rate fromCode toCode with
      | Throw e => (Throw e, w1)
      | Ok v => (Ok (responseOf from to a v), cachedIn env from to a v w1)
      end
  end.
Proof.
  intros (Hguard & (Hfrom & Hfrom0) & (Hto & Hto0) & Hmiss & Hrates).
  unfold convert. cbv zeta. rewrite Hguard, Hfrom, Hto.
  unfold noCode, codeOf.
  apply Z.eqb_neq in Hfrom0. apply Z.eqb_neq in Hto0.
  rewrite Hfrom0, Hto0.
  unfold bind at 1.
  assert (Hget : cacheGetConversion (getConversionCacheKey from to a) w
                 = (Ok None, w)).
  { revert Hmiss. unfold cacheGetConversion.
    destruct (find _ (conversionEntries (cache w))) as [[[k d] x]|]; simpl;
      intro H; [discriminate H | reflexivity]. }
  rewrite Hget. unfold bind at 1. rewrite Hrates.
  destruct (findRate rates fromCode toCode) as [rate|]; [|reflexivity].
  destruct (calculateConversion a rate fromCode toCode) as [v|e];
    reflexivity.
Qed.

(** What [Number(x.toFixed(4))] returns is [x] rounded to four decimal
    places. *)
Lemma toFixed4_rounds (x : float) : roundedTo4Places x (JS.toFixed4 x).
Proof.
  unfold roundedTo4Places, JS.toFixed4.
  destruct (Prim2SF x) as [s|s| |s m e]; try reflexivity.
  destruct (PrimFloat.leb 1e21 (PrimFloat.abs x)); [reflexivity|].
  exists (JS.scaled4 m e). split; [|reflexivity].
  unfold nearestTenThousandths.
  destruct e as [|p|p].
  - simpl. lia.
  - change (Z.max (- Zpos p) 0) with 0.
    change (Z.max (Zpos p) 0) with (Zpos p).
    unfold JS.scaled4. rewrite Z.pow_0_r. lia.
  - change (Z.max (- Zneg p) 0) with (Zpos p).
    change (Z.max (Zneg p) 0) with 0.
    rewrite Z.pow_0_r, Z.mul_1_r. exact (scaled4_nearest m p).
Qed.

(** C1. On every resolved rate record the engine picks the rate by
    direction, in this order: towards the base currency the amount is
    multiplied by the required buy rate, from the base currency it is
    divided by the required sell rate, otherwise it is multiplied by the
    required cross rate; a failure of the required rate is the failure of
    [convert], and otherwise the [result] field [convert] returns is that
    value rounded to four decimal places: the whole number of
    ten-thousandths nearest to it, which is what [Number(value.toFixed(4))]
    gives. *)
Theorem convert_by_direction (env : Env) (from to : string) (a : float)
    (fromCode toCode : Z) (w : World) (rates : list MonobankRate)
    (w1 : World) (rate : MonobankRate) :
  reachesResolver env from to a fromCode toCode w rates w1 ->
  findRate rates fromCode toCode = Some rate ->
  let kind :=
    if toCode =? UAH_CODE then buy
    else if fromCode =? UAH_CODE then sell else cross in
  let value (r : float) :=
    if toCode =? UAH_CODE then (a * r)%float
    else if fromCode =? UAH_CODE then (a / r)%float else (a * r)%float in
  match getRequiredRate rate kind with
  | Ok r =>
      calculateConversion a rate fromCode toCode = Ok (value r)
      /\ exists rounded,
           fst (convert env from to (Num a) w)
           = Ok (mkResponse (toUpperCase from) (toUpperCase to) a rounded)
           /\ rounded = JS.toFixed4 (value r)
           /\ roundedTo4Places (value r) rounded
  | Throw e =>
      calculateConversion a rate fromCode toCode = Throw e
      /\ convert env from to (Num a) w = (Throw e, w1)
  end.
Proof.
  intros Hreach Hrate kind value.
  rewrite (convert_resolves _ _ _ _ _ _ _ _ _ Hreach), Hrate.
  unfold calculateConversion, kind, value.
  destruct (toCode =? UAH_CODE); [|destruct (fromCode =? UAH_CODE)];
    destruct (getRequiredRate rate _) as [r|e];
    (split; [reflexivity|]); try reflexivity;
    eexists; (split; [reflexivity|]); (split; [reflexivity|]);
    apply toFixed4_rounds.
Qed.

Ltac at_fixture :=
  unfold reachesResolver;
  repeat match goal with
         | |- _ /\ _ => split
         | |- _ <> _ => discriminate
         | |- _ = _ => vm_compute; reflexivity
         end.

(** 100 USD into EUR at the test fixture: 100 * (37.5 / 41.5) is
    90.36144578313253..., which is not a whole number of ten-thousandths;
    the response carries 903614 ten-thousandths, 90.3614. *)
Lemma convert_by_direction_witness :
  reachesResolver (mockEnv alwaysUp) "USD" "EUR" 100 840 978 initialWorld
    mockRates (snd (getExchangeRates (mockEnv alwaysUp) initialWorld))
  /\ findRate mockRates 840 978
     = Some (mkRate 840 978 1704326400 None None (Some (37.5 / 41.5)%float))
  /\ calculateConversion 100
       (mkRate 840 978 1704326400 None None (Some (37.5 / 41.5)%float))
       840 978
     = Ok (100 * (37.5 / 41.5))%float
  /\ (exists rounded,
        fst (convert (mockEnv alwaysUp) "USD" "EUR" (Num 100) initialWorld)
        = Ok (mkResponse "USD" "EUR" 100 rounded)
        /\ rounded = JS.toFixed4 (100 * (37.5 / 41.5))
        /\ roundedTo4Places (100 * (37.5 / 41.5)) rounded)
  /\ JS.toFixed4 (100 * (37.5 / 41.5)) = (903614 / 10000)%float
  /\ tenThousandths 903614 = (903614 / 10000)%float
  /\ PrimFloat.eqb (JS.toFixed4 (100 * (37.5 / 41.5))) (100 * (37.5 / 41.5))
     = false.
Proof.
  assert (Hreach :
    reachesResolver (mockEnv alwaysUp) "USD" "EUR" 100 840 978 initialWorld
      mockRates (snd (getExchangeRates (mockEnv alwaysUp) initialWorld)))
    by at_fixture.
  assert (Hrate :
    findRate mockRates 840 978
    = Some (mkRate 840 978 1704326400 None None (Some (37.5 / 41.5)%float)))
    by reflexivity.
  split; [exact Hreach|]. split; [exact Hrate|].
  split; [|split; [|repeat split; vm_compute; reflexivity]].
  - exact (proj1 (convert_by_direction _ _ _ _ _ _ _ _ _ _ Hreach Hrate)).
  - exact (proj2 (convert_by_direction _ _ _ _ _ _ _ _ _ _ Hreach Hrate)).
Defined.

(** C5, as stated, fails: a negative buy rate is non-positive, yet it is
    the value [getRequiredRate] returns. *)
Lemma getRequiredRate_negative_counterexample :
  selectedAsSpecified usdNegativeBuy buy = Some (-1)%float
  /\ PrimFloat.leb (-1) 0 = true
  /\ getRequiredRate usdNegativeBuy buy = Ok (-1)%float.
Proof. repeat split. Qed.

(** C5, amended. [getRequiredRate] selects the buy rate if present, else the
    cross rate, for [buy]; the sell rate if present, else the cross rate, for
    [sell]; the cross rate only for [cross]; it fails exactly when the
    selected value is absent, zero or [NaN], with the incomplete-rate-data
    error, whose status (503) is not that of rate-not-found (404); any other
    selected value is returned. *)
Theorem getRequiredRate_selects (rate : MonobankRate) (kind : RateType) :
  getRequiredRate rate kind =
  match selectedAsSpecified rate kind with
  | None => Throw IncompleteRateData
  | Some v =>
      if PrimFloat.is_nan v || PrimFloat.eqb v 0 then Throw IncompleteRateData
      else Ok v
  end
  /\ (forall src dst,
        IncompleteRateData <> RateNotFound src dst
        /\ getStatus IncompleteRateData <> getStatus (RateNotFound src dst)).
Proof.
  split.
  - unfold getRequiredRate, selectedAsSpecified, JS.nullish, JS.truthy,
      PrimFloat.is_zero, PrimFloat.zero.
    destruct kind;
      repeat match goal with
             | |- context [match ?f rate with _ => _ end] =>
                 destruct (f rate)
             end;
      try reflexivity;
      match goal with
      | |- context [PrimFloat.is_nan ?v || _] =>
          destruct (PrimFloat.is_nan v || PrimFloat.eqb v 0); reflexivity
      end.
  - intros src dst. split; discriminate.
Qed.

(** C2, as stated, fails: a buy rate of zero is present, so the stated
    formula gives a cross rate of [0 / 41.5 = 0], while the code skips the
    zero and divides the leg's cross rate, 40, by 41.5. *)
Lemma cross_rate_counterexample :
  findRate (usdZeroBuy :: eurLeg :: nil) 840 978
  = Some (mkRate 840 978 1704326400 None None (Some (40 / 41.5)%float))
  /\ crossRateAsSpecified usdZeroBuy eurLeg = 0%float
  /\ PrimFloat.eqb (40 / 41.5) 0 = false.
Proof. repeat split. Qed.

Lemma usableOrOne_present (a b : JS.optnum) :
  (forall v, a = Some v \/ b = Some v -> JS.truthy v = true) ->
  usableOrOne a b = presentOrOne a b.
Proof.
  intros H. unfold usableOrOne, presentOrOne, JS.or_default, JS.or_else.
  destruct a as [x|].
  - rewrite (H x) by (left; reflexivity). rewrite (H x) by (left; reflexivity).
    reflexivity.
  - destruct b as [y|]; [|reflexivity].
    rewrite (H y) by (right; reflexivity). reflexivity.
Qed.

Lemma usableOrOne_first (a b : JS.optnum) (x : float) :
  a = Some x -> JS.truthy x = true -> usableOrOne a b = x.
Proof.
  intros -> H. unfold usableOrOne, JS.or_default, JS.or_else.
  rewrite H, H. reflexivity.
Qed.

(** C2, amended. For two non-base codes whose legs [f] and [t] are the first
    records of the snapshot quoting them against the base currency, the
    resolver returns a record with the two codes, the larger of the two
    timestamps, no buy and no sell rate, and the cross rate
    [buySide f / sellSide t], where a side is the first of the leg's
    directional rate and cross rate that is present and neither zero nor
    [NaN], else 1; this is the stated formula whenever every populated field
    of the two legs is such a number; and with a buy rate of 37.5 on the
    source leg and a sell rate of 41.5 on the target leg the conversion
    multiplies the amount by [37.5 / 41.5]. *)
Theorem findRate_synthesizes_cross_rate (rates : list MonobankRate)
    (fromCode toCode : Z) (f t : MonobankRate) :
  fromCode <> UAH_CODE -> toCode <> UAH_CODE ->
  firstLegOf fromCode rates (Some f) ->
  firstLegOf toCode rates (Some t) ->
  let synthesized :=
    mkRate fromCode toCode (JS.Math_max (date f) (date t)) None None
           (Some (buySide f / sellSide t)%float) in
  findRate rates fromCode toCode = Some synthesized
  /\ (populatedFieldsUsable f -> populatedFieldsUsable t ->
      rateCross synthesized = Some (crossRateAsSpecified f t))
  /\ (rateBuy f = Some 37.5%float -> rateSell t = Some 41.5%float ->
      forall a,
        calculateConversion a synthesized fromCode toCode
        = Ok (a * (37.5 / 41.5))%float).
Proof.
  intros Hfrom Hto (bf & af & Hf & Hlegf & Hbf) (bt & aft & Ht & Hlegt & Hbt)
         synthesized.
  split; [|split].
  - rewrite findRate_cross by assumption.
    rewrite Hf at 1. rewrite (find_after_non_legs _ _ _ _ Hbf Hlegf).
    rewrite Ht at 1. rewrite (find_after_non_legs _ _ _ _ Hbt Hlegt).
    reflexivity.
  - intros Huf Hut. unfold synthesized, crossRateAsSpecified, buySide, sellSide.
    simpl.
    rewrite (usableOrOne_present (rateBuy f) (rateCross f))
      by (intros v [H|H]; apply Huf; tauto).
    rewrite (usableOrOne_present (rateSell t) (rateCross t))
      by (intros v [H|H]; apply Hut; tauto).
    reflexivity.
  - intros Hbuy Hsell a. unfold calculateConversion.
    apply Z.eqb_neq in Hfrom. apply Z.eqb_neq in Hto. rewrite Hfrom, Hto.
    unfold synthesized, getRequiredRate, buySide, sellSide, usableOrOne.
    simpl. rewrite Hbuy, Hsell. reflexivity.
Qed.

(** The synthesis at the test fixture: USD into EUR. *)
Lemma findRate_synthesizes_cross_rate_witness :
  840 <> UAH_CODE /\ 978 <> UAH_CODE
  /\ firstLegOf 840 mockRates (Some usdLeg)
  /\ firstLegOf 978 mockRates (Some eurLeg)
  /\ findRate mockRates 840 978
     = Some (mkRate 840 978 1704326400 None None (Some (37.5 / 41.5)%float))
  /\ calculateConversion 100
       (mkRate 840 978 1704326400 None None (Some (37.5 / 41.5)%float))
       840 978
     = Ok (100 * (37.5 / 41.5))%float.
Proof.
  assert (H1 : 840 <> UAH_CODE) by discriminate.
  assert (H2 : 978 <> UAH_CODE) by discriminate.
  assert (H3 : firstLegOf 840 mockRates (Some usdLeg)).
  { exists nil, (tl mockRates). repeat split. constructor. }
  assert (H4 : firstLegOf 978 mockRates (Some eurLeg)).
  { exists (usdLeg :: nil), (tl (tl mockRates)). repeat split.
    repeat constructor. intros [H _]. discriminate H. }
  destruct (findRate_synthesizes_cross_rate mockRates 840 978 usdLeg eurLeg
              H1 H2 H3 H4) as (Hfind & _ & Hmul).
  do 4 (split; [assumption|]). split; [exact Hfind|].
  exact (Hmul eq_refl eq_refl 100%float).
Defined.




(** C10, as stated, fails: the USD leg carries a buy rate (0) and a sell
    rate (38) that differ, yet converting 100 USD into USD does not return
    [100 * 0 / 38] rounded, which is 0; the zero is skipped, the numerator
    falls back to 1, and the result is 2.6316. *)
Lemma same_currency_counterexample :
  840 <> UAH_CODE
  /\ findRate (usdZeroBuyNoCross :: nil) 840 980 = Some usdZeroBuyNoCross
  /\ rateBuy usdZeroBuyNoCross = Some 0%float
  /\ rateSell usdZeroBuyNoCross = Some 38%float
  /\ PrimFloat.eqb 0 38 = false
  /\ PrimFloat.ltb 0 100 = true
  /\ fst (convert (mockEnv (answering (usdZeroBuyNoCross :: nil)))
            "USD" "USD" (Num 100) initialWorld)
     = Ok (mkResponse "USD" "USD" 100 (JS.toFixed4 (100 * (1 / 38))))
  /\ JS.toFixed4 (100 * 0 / 38) = 0%float
  /\ PrimFloat.eqb (JS.toFixed4 (100 * (1 / 38))) (JS.toFixed4 (100 * 0 / 38))
     = false.
Proof.
  split; [discriminate|]. repeat split; vm_compute; reflexivity.
Qed.

(** C10, amended. For a non-base currency whose leg carries a buy rate [b]
    and a sell rate [s] that are neither zero nor [NaN], and whose quotient
    [b / s] is neither zero nor [NaN], converting an amount from the
    currency into itself succeeds and returns [amount * (b / s)] rounded to
    four decimal places: the one leg serves as the source leg on its buy
    side and as the target leg on its sell side. *)
Theorem same_currency_conversion (env : Env) (symbol : string) (a : float)
    (code : Z) (w : World) (rates : list MonobankRate) (w1 : World)
    (leg : MonobankRate) (b s : float) :
  reachesResolver env symbol symbol a code code w rates w1 ->
  code <> UAH_CODE ->
  firstLegOf code rates (Some leg) ->
  rateBuy leg = Some b -> rateSell leg = Some s ->
  JS.truthy b = true -> JS.truthy s = true ->
  JS.truthy (b / s) = true ->
  convert env symbol symbol (Num a) w
  = (Ok (mkResponse (toUpperCase symbol) (toUpperCase symbol) a
                    (JS.toFixed4 (a * (b / s)))),
     cachedIn env symbol symbol a (a * (b / s)) w1).
Proof.
  intros Hreach Hcode (before & after & Hrates & Hleg & Hbefore)
         Hb Hs Htb Hts Htq.
  rewrite (convert_resolves _ _ _ _ _ _ _ _ _ Hreach).
  rewrite findRate_cross by assumption.
  rewrite Hrates, (find_after_non_legs _ _ _ _ Hbefore Hleg).
  unfold calculateConversion. apply Z.eqb_neq in Hcode. rewrite Hcode.
  unfold getRequiredRate, buySide, sellSide. cbn [rateCross].
  rewrite (usableOrOne_first _ (rateCross leg) b Hb Htb),
    (usableOrOne_first _ (rateCross leg) s Hs Hts), Htq.
  reflexivity.
Qed.

(** 100 USD into USD at the test fixture: 100 * (37.5 / 38) = 98.6842. *)
Lemma same_currency_conversion_witness :
  reachesResolver (mockEnv alwaysUp) "USD" "USD" 100 840 840 initialWorld
    mockRates (snd (getExchangeRates (mockEnv alwaysUp) initialWorld))
  /\ firstLegOf 840 mockRates (Some usdLeg)
  /\ fst (convert (mockEnv alwaysUp) "USD" "USD" (Num 100) initialWorld)
     = Ok (mkResponse "USD" "USD" 100 (JS.toFixed4 (100 * (37.5 / 38)))).
Proof.
  assert (Hreach :
    reachesResolver (mockEnv alwaysUp) "USD" "USD" 100 840 840 initialWorld
      mockRates (snd (getExchangeRates (mockEnv alwaysUp) initialWorld)))
    by at_fixture.
  assert (Hleg : firstLegOf 840 mockRates (Some usdLeg)).
  { exists nil, (tl mockRates). repeat split. constructor. }
  split; [exact Hreach|]. split; [exact Hleg|].
  assert (Hcode : 840 <> UAH_CODE) by discriminate.
  rewrite (same_currency_conversion _ _ _ _ _ _ _ usdLeg 37.5 38
             Hreach Hcode Hleg eq_refl eq_refl eq_refl eq_refl eq_refl).
  reflexivity.
Defined.

(** ** The guards of [convert] *)

(** An amount that is not of number type, or is zero or negative, and a
    symbol without a numeric code, are refused with status 400 before
    anything else happens: the world is left as it was. *)
Lemma convert_refuses_invalid_input (env : Env) (from to : string)
    (amount : AmountArg) (w : World) :
  (amount = NotANumberType
   \/ (exists x, amount = Num x /\ PrimFloat.leb x 0 = true)
   \/ getCurrencyCode env from = None
   \/ getCurrencyCode env to = None) ->
  exists e,
    convert env from to amount w = (Throw e, w)
    /\ getStatus e = HttpStatus.BAD_REQUEST.
Proof.
  intros H. unfold convert.
  destruct amount as [x|]; [|exists InvalidAmount; split; reflexivity].
  destruct (PrimFloat.leb x 0) eqn:Hx;
    [exists InvalidAmount; split; reflexivity|].
  destruct H as [H|[(y & Hy & Hle)|[H|H]]].
  - discriminate H.
  - injection Hy as <-. congruence.
  - rewrite H. exists (UnsupportedCurrency from). split; reflexivity.
  - rewrite H. cbv zeta. destruct (noCode (getCurrencyCode env from)).
    + exists (UnsupportedCurrency from). split; reflexivity.
    + exists (UnsupportedCurrency to). split; reflexivity.
Qed.

(** C9 at [NaN]: [typeof NaN] is ['number'] and [NaN <= 0] is false, so the
    guard lets the amount through although it is not a positive number; the
    provider is called and the response carries [NaN]. *)
Theorem convert_lets_NaN_through :
  PrimFloat.ltb 0 PrimFloat.nan = false
  /\ fst (convert (mockEnv alwaysUp) "USD" "UAH" (Num PrimFloat.nan)
            initialWorld)
     = Ok (mkResponse "USD" "UAH" PrimFloat.nan PrimFloat.nan)
  /\ trace (snd (convert (mockEnv alwaysUp) "USD" "UAH" (Num PrimFloat.nan)
                   initialWorld))
     = [HttpGet].
Proof. repeat split. Qed.

(** ** Round trips *)

(** C8, as stated, fails at the test fixture: 100 USD into EUR and back on
    one snapshot (a single transport call) returns 97.4952, and 100 USD into
    UAH and back returns 98.6842; both are more than 1 away from 100. *)
Lemma round_trip_counterexample :
  roundTrip (mockEnv alwaysUp) "USD" "EUR" 100 initialWorld
  = Some (JS.toFixed4 (100 * (37.5 / 41.5)),
          JS.toFixed4 (JS.toFixed4 (100 * (37.5 / 41.5)) * (41 / 38)),
          1%nat)
  /\ PrimFloat.ltb 1
       (PrimFloat.abs
          (JS.toFixed4 (JS.toFixed4 (100 * (37.5 / 41.5)) * (41 / 38)) - 100))
     = true
  /\ roundTrip (mockEnv alwaysUp) "USD" "UAH" 100 initialWorld
     = Some (3750%float, JS.toFixed4 (3750 / 38), 1%nat)
  /\ PrimFloat.ltb 1 (PrimFloat.abs (JS.toFixed4 (3750 / 38) - 100)) = true.
Proof. repeat split; vm_compute; reflexivity. Qed.

Lemma getRequiredRate_ok (rate : MonobankRate) (kind : RateType) (v : float) :
  getRequiredRate rate kind = Ok v -> selectedAsSpecified rate kind = Some v.
Proof.
  unfold getRequiredRate, selectedAsSpecified, JS.nullish.
  destruct kind;
    repeat match goal with
           | |- context [match ?f rate with _ => _ end] => destruct (f rate)
           end;
    try discriminate;
    match goal with
    | |- context [JS.truthy ?x] => destruct (JS.truthy x)
    end;
    intro H; try discriminate H; injection H as ->; reflexivity.
Qed.

Lemma calculateConversion_ok (a : float) (rate : MonobankRate)
    (fromCode toCode : Z) (v : float) :
  calculateConversion a rate fromCode toCode = Ok v ->
  if toCode =? UAH_CODE then
    exists b, selectedAsSpecified rate buy = Some b /\ v = (a * b)%float
  else if fromCode =? UAH_CODE then
    exists s, selectedAsSpecified rate sell = Some s /\ v = (a / s)%float
  else
    exists c, rateCross rate = Some c /\ v = (a * c)%float.
Proof.
  unfold calculateConversion.
  destruct (toCode =? UAH_CODE); [|destruct (fromCode =? UAH_CODE)];
    destruct (getRequiredRate rate _) as [r|e] eqn:Hr;
    intro H; try discriminate H; injection H as <-;
    exists r; (split; [exact (getRequiredRate_ok _ _ _ Hr) | reflexivity]).
Qed.

Lemma convert_ok (env : Env) (from to : string) (a : float)
    (fromCode toCode : Z) (w : World) (rates : list MonobankRate)
    (w1 : World) (y : ConvertResponseDto) :
  reachesResolver env from to a fromCode toCode w rates w1 ->
  fst (convert env from to (Num a) w) = Ok y ->
  exists rate v,
    findRate rates fromCode toCode = Some rate
    /\ calculateConversion a rate fromCode toCode = Ok v
    /\ result y = JS.toFixed4 v.
Proof.
  intros Hreach. rewrite (convert_resolves _ _ _ _ _ _ _ _ _ Hreach).
  destruct (findRate rates fromCode toCode) as [rate|]; [|discriminate].
  destruct (calculateConversion a rate fromCode toCode) as [v|e] eqn:Hv;
    [|discriminate].
  simpl. intro H. injection H as <-.
  exists rate, v. split; [reflexivity|]. split; [exact Hv|reflexivity].
Qed.

Lemma find_is_first_leg (code : Z) (rates : list MonobankRate)
    (leg : MonobankRate) :
  find (quotedInUah code) rates = Some leg ->
  firstLegOf code rates (Some leg).
Proof. intros H. rewrite <- H. apply find_firstLegOf. Qed.

(** C8, amended. When [x] units of A are converted into B and the result
    [y] back into A, both calls resolving against the same snapshot, the
    value returned is [y] times the rate of the way back, rounded to four
    decimal places, where [y] is [x] times the rate of the way there,
    rounded likewise; each way uses the buy side of its source leg and the
    sell side of its target leg.  For two non-base currencies the rates are
    [buySide A / sellSide B] and [buySide B / sellSide A]; with B the base
    currency the amount is multiplied by A's buy rate and the result divided
    by A's sell rate; with A the base currency the amount is divided by B's
    sell rate and the result multiplied by B's buy rate. *)
Theorem round_trip_applies_both_rates (env : Env) (A B : string) (x : float)
    (codeA codeB : Z) (w w' : World) (rates : list MonobankRate)
    (w1 w2 : World) (y z : ConvertResponseDto) :
  codeA <> codeB ->
  reachesResolver env A B x codeA codeB w rates w1 ->
  fst (convert env A B (Num x) w) = Ok y ->
  reachesResolver env B A (result y) codeB codeA w' rates w2 ->
  fst (convert env B A (Num (result y)) w') = Ok z ->
  (codeA <> UAH_CODE -> codeB <> UAH_CODE ->
   exists legA legB,
     firstLegOf codeA rates (Some legA)
     /\ firstLegOf codeB rates (Some legB)
     /\ result y = JS.toFixed4 (x * (buySide legA / sellSide legB))
     /\ result z
        = JS.toFixed4 (result y * (buySide legB / sellSide legA)))
  /\ (codeB = UAH_CODE ->
      exists legA b s,
        firstLegOf codeA rates (Some legA)
        /\ selectedAsSpecified legA buy = Some b
        /\ selectedAsSpecified legA sell = Some s
        /\ result y = JS.toFixed4 (x * b)
        /\ result z = JS.toFixed4 (result y / s))
  /\ (codeA = UAH_CODE ->
      exists legB b s,
        firstLegOf codeB rates (Some legB)
        /\ selectedAsSpecified legB buy = Some b
        /\ selectedAsSpecified legB sell = Some s
        /\ result y = JS.toFixed4 (x / s)
        /\ result z = JS.toFixed4 (result y * b)).
Proof.
  intros Hne Hreach1 Hy Hreach2 Hz.
  destruct (convert_ok _ _ _ _ _ _ _ _ _ _ Hreach1 Hy)
    as (r1 & v1 & Hfind1 & Hcalc1 & Hres1).
  destruct (convert_ok _ _ _ _ _ _ _ _ _ _ Hreach2 Hz)
    as (r2 & v2 & Hfind2 & Hcalc2 & Hres2).
  apply calculateConversion_ok in Hcalc1, Hcalc2.
  rewrite Hres1, Hres2 in *. clear Hres1 Hres2.
  split; [|split].
  - intros HA HB.
    rewrite findRate_cross in Hfind1, Hfind2 by assumption.
    destruct (find (quotedInUah codeA) rates) as [legA|] eqn:HlegA;
      [|discriminate Hfind1].
    destruct (find (quotedInUah codeB) rates) as [legB|] eqn:HlegB;
      [|discriminate Hfind1].
    injection Hfind1 as <-. injection Hfind2 as <-.
    apply Z.eqb_neq in HA. apply Z.eqb_neq in HB.
    rewrite HA, HB in Hcalc1, Hcalc2.
    destruct Hcalc1 as (c1 & Hc1 & ->). destruct Hcalc2 as (c2 & Hc2 & ->).
    simpl in Hc1, Hc2. injection Hc1 as <-. injection Hc2 as <-.
    exists legA, legB.
    split; [now apply find_is_first_leg|].
    split; [now apply find_is_first_leg|].
    split; reflexivity.
  - intros HB. assert (HA : codeA <> UAH_CODE) by congruence.
    rewrite findRate_base in Hfind1, Hfind2 by tauto.
    pose proof HA as HA'. apply Z.eqb_neq in HA'.
    pose proof HB as HB'. apply Z.eqb_eq in HB'.
    rewrite HA', HB' in *.
    destruct Hcalc1 as (b & Hb & ->). destruct Hcalc2 as (s & Hs & ->).
    exists r1, b, s.
    split; [now apply find_is_first_leg|].
    split; [exact Hb|].
    split; [congruence|].
    split; reflexivity.
  - intros HA. assert (HB : codeB <> UAH_CODE) by congruence.
    rewrite findRate_base in Hfind1, Hfind2 by tauto.
    pose proof HA as HA'. apply Z.eqb_eq in HA'.
    pose proof HB as HB'. apply Z.eqb_neq in HB'.
    rewrite HA', HB' in *.
    destruct Hcalc1 as (s & Hs & ->). destruct Hcalc2 as (b & Hb & ->).
    exists r1, b, s.
    split; [now apply find_is_first_leg|].
    split; [congruence|].
    split; [exact Hs|].
    split; reflexivity.
Qed.

(** The round trip USD, EUR, USD at the test fixture. *)
Lemma round_trip_applies_both_rates_witness :
  exists y z,
    fst (convert (mockEnv alwaysUp) "USD" "EUR" (Num 100) initialWorld) = Ok y
    /\ fst (convert (mockEnv alwaysUp) "EUR" "USD" (Num (result y))
              (snd (convert (mockEnv alwaysUp) "USD" "EUR" (Num 100)
                      initialWorld)))
       = Ok z
    /\ exists legA legB,
         firstLegOf 840 mockRates (Some legA)
         /\ firstLegOf 978 mockRates (Some legB)
         /\ result y = JS.toFixed4 (100 * (buySide legA / sellSide legB))
         /\ result z
            = JS.toFixed4 (result y * (buySide legB / sellSide legA)).
Proof.
  pose (env := mockEnv alwaysUp).
  pose (w' := snd (convert env "USD" "EUR" (Num 100) initialWorld)).
  pose (y := responseOf "USD" "EUR" 100 (100 * (37.5 / 41.5))).
  pose (z := responseOf "EUR" "USD" (result y) (result y * (41 / 38))).
  assert (Hne : 840 <> 978) by discriminate.
  assert (Hreach1 :
    reachesResolver env "USD" "EUR" 100 840 978 initialWorld mockRates
      (snd (getExchangeRates env initialWorld))) by at_fixture.
  assert (Hy : fst (convert env "USD" "EUR" (Num 100) initialWorld) = Ok y)
    by (vm_compute; reflexivity).
  assert (Hreach2 :
    reachesResolver env "EUR" "USD" (result y) 978 840 w' mockRates
      (snd (getExchangeRates env w'))) by at_fixture.
  assert (Hz : fst (convert env "EUR" "USD" (Num (result y)) w') = Ok z)
    by (vm_compute; reflexivity).
  exists y, z. split; [exact Hy|]. split; [exact Hz|].
  destruct (round_trip_applies_both_rates env "USD" "EUR" 100 840 978
              initialWorld w' mockRates _ _ y z Hne Hreach1 Hy Hreach2 Hz)
    as [H _].
  apply H; discriminate.
Defined.

(** ** The retrier *)

Lemma httpGet_effect (env : Env) (w : World) :
  exists w',
    httpGet env w = (Ok (outcomeAt env w 0), w')
    /\ httpCalls w' = S (httpCalls w)
    /\ trace w' = trace w ++ [HttpGet]
    /\ failureCount w' = failureCount w
    /\ lastFailureTime w' = lastFailureTime w
    /\ circuitOpen w' = circuitOpen w
    /\ cache w' = cache w.
Proof.
  unfold httpGet, outcomeAt. rewrite Nat.add_0_r.
  destruct (upstream env (httpCalls w)) as [outcome took].
  eexists. split; [reflexivity|]. simpl. repeat split.
Qed.

(** One iteration of the loop of [fetchWithRetry]. *)
Lemma fetchLoop_step (env : Env) (left : nat) (retries delay attempt : Z)
    (w : World) :
  fetchLoop env (S left) retries delay attempt w =
  let w' := snd (httpGet env w) in
  match outcomeAt env w 0 with
  | Response data => (Ok data, w')
  | AxiosError status statusText =>
      if isClientError status then
        (Throw (ProviderError statusText
                  (match status with Some st => st | None => 0 end)), w')
      else if attempt =? retries then (Throw RetriesExhausted, w')
      else
        fetchLoop env left retries delay (attempt + 1)
                  (snd (sleep (delay * 2 ^ (attempt - 1)) w'))
  end.
Proof.
  destruct (httpGet_effect env w) as (w' & Hget & _).
  cbn [fetchLoop]. unfold bind at 1. rewrite Hget. cbn [snd].
  destruct (outcomeAt env w 0) as [data|status statusText]; [reflexivity|].
  destruct (isClientError status); [reflexivity|].
  destruct (attempt =? retries); reflexivity.
Qed.

(** The loop leaves the breaker and the cache alone and makes at most as
    many transport calls as it has iterations left. *)
Lemma fetchLoop_frame (env : Env) (retries delay : Z) :
  forall (left : nat) (attempt : Z) (w : World),
    let w' := snd (fetchLoop env left retries delay attempt w) in
    failureCount w' = failureCount w
    /\ lastFailureTime w' = lastFailureTime w
    /\ circuitOpen w' = circuitOpen w
    /\ cache w' = cache w
    /\ (httpCalls w <= httpCalls w' <= httpCalls w + left)%nat
    /\ (exists more, trace w' = trace w ++ more)
    /\ clock w <= clock w'.
Proof.
  induction left as [|left IH]; intros attempt w.
  - simpl. repeat split; try lia. exists []. now rewrite app_nil_r.
  - cbv zeta. rewrite fetchLoop_step. cbv zeta.
    destruct (httpGet_effect env w)
      as (w1 & Hget & Hcalls & Htrace & Hcount & Hlast & Hopen & Hcache).
    assert (Hclock : clock w <= clock w1).
    { revert Hget. unfold httpGet.
      destruct (upstream env (httpCalls w)) as [o took].
      intro H. injection H as _ <-. simpl. lia. }
    rewrite Hget. cbn [snd].
    assert (Hdone :
      failureCount w1 = failureCount w
      /\ lastFailureTime w1 = lastFailureTime w
      /\ circuitOpen w1 = circuitOpen w
      /\ cache w1 = cache w
      /\ (httpCalls w <= httpCalls w1 <= httpCalls w + S left)%nat
      /\ (exists more, trace w1 = trace w ++ more)
      /\ clock w <= clock w1).
    { repeat (split; [assumption || lia|]). split; [|exact Hclock].
      exists [HttpGet]. exact Htrace. }
    destruct (outcomeAt env w 0) as [data|status statusText];
      [exact Hdone|].
    destruct (isClientError status); [exact Hdone|].
    destruct (attempt =? retries); [exact Hdone|].
    set (w2 := snd (sleep (delay * 2 ^ (attempt - 1)) w1)).
    assert (Hw2 :
      failureCount w2 = failureCount w1
      /\ lastFailureTime w2 = lastFailureTime w1
      /\ circuitOpen w2 = circuitOpen w1
      /\ cache w2 = cache w1
      /\ httpCalls w2 = httpCalls w1
      /\ trace w2 = trace w1 ++ [Sleep (delay * 2 ^ (attempt - 1))]
      /\ clock w1 <= clock w2).
    { subst w2. simpl. repeat (split; [reflexivity|]). lia. }
    destruct Hw2 as (S1 & S2 & S3 & S4 & S5 & S6 & S7).
    specialize (IH (attempt + 1) w2). cbv zeta in IH.
    destruct IH as (H1 & H2 & H3 & H4 & H5 & (more & H6) & H7).
    rewrite H1, H2, H3, H4.
    split; [congruence|]. split; [congruence|].
    split; [congruence|]. split; [congruence|].
    split; [lia|]. split; [|lia].
    exists ([HttpGet] ++ [Sleep (delay * 2 ^ (attempt - 1))] ++ more).
    rewrite H6, S6, Htrace, <- !app_assoc. reflexivity.
Qed.

Lemma retryable_is_failure (o : AxiosOutcome) :
  retryable o = true ->
  exists status statusText,
    o = AxiosError status statusText /\ isClientError status = false.
Proof.
  destruct o as [data|status statusText]; simpl; [discriminate|].
  intro H. exists status, statusText. split; [reflexivity|].
  now apply negb_true_iff.
Qed.

(** After [k] retryable failures the loop ends at attempt [k + 1] if that
    attempt succeeds, fails with a 4xx, or is the last one allowed. *)
Lemma fetchLoop_schedule (env : Env) (retries delay : Z) :
  forall (k left : nat) (attempt : Z) (w : World),
    Z.of_nat left = retries - attempt + 1 ->
    (k < left)%nat ->
    (forall i, (i < k)%nat -> retryable (outcomeAt env w i) = true) ->
    retryable (outcomeAt env w k) = false \/ S k = left ->
    fst (fetchLoop env left retries delay attempt w)
    = surfaced (outcomeAt env w k)
    /\ trace (snd (fetchLoop env left retries delay attempt w))
       = trace w ++ failedAttempts delay attempt k ++ [HttpGet]
    /\ httpCalls (snd (fetchLoop env left retries delay attempt w))
       = (httpCalls w + S k)%nat.
Proof.
  induction k as [|k IH]; intros left attempt w Hleft Hk Hfail Hlast;
    (destruct left as [|left]; [lia|]);
    rewrite fetchLoop_step; cbv zeta;
    destruct (httpGet_effect env w) as (w1 & Hget & Hcalls & Htrace & _);
    rewrite Hget; cbn [snd].
  - unfold surfaced.
    destruct (outcomeAt env w 0) as [data|status statusText] eqn:Ho.
    + simpl. repeat split; [assumption | lia].
    + destruct (isClientError status) eqn:Hclient.
      * simpl. repeat split; [assumption | lia].
      * destruct Hlast as [Hlast|Hlast];
          [simpl in Hlast; rewrite Hclient in Hlast; discriminate Hlast|].
        replace (attempt =? retries) with true
          by (symmetry; apply Z.eqb_eq; lia).
        simpl. repeat split; [assumption | lia].
  - destruct (retryable_is_failure _ (Hfail 0%nat ltac:(lia)))
      as (status & statusText & Ho & Hclient).
    rewrite Ho, Hclient.
    replace (attempt =? retries) with false
      by (symmetry; apply Z.eqb_neq; lia).
    set (w2 := snd (sleep (delay * 2 ^ (attempt - 1)) w1)).
    assert (Hcalls2 : httpCalls w2 = S (httpCalls w))
      by (subst w2; simpl; exact Hcalls).
    assert (Htrace2 :
      trace w2 = trace w ++ [HttpGet; Sleep (delay * 2 ^ (attempt - 1))]).
    { subst w2. simpl. rewrite Htrace, <- app_assoc. reflexivity. }
    assert (Hshift : forall i, outcomeAt env w2 i = outcomeAt env w (S i)).
    { intro i. unfold outcomeAt. rewrite Hcalls2.
      now rewrite Nat.add_succ_comm. }
    destruct (IH left (attempt + 1) w2) as (H1 & H2 & H3).
    + lia.
    + lia.
    + intros i Hi. rewrite Hshift. apply Hfail. lia.
    + rewrite Hshift. destruct Hlast as [Hlast|Hlast]; [now left|right; lia].
    + rewrite H1, H2, H3, Hshift, Htrace2, Hcalls2.
      split; [reflexivity|]. split; [|lia].
      cbn [failedAttempts]. rewrite <- !app_assoc. reflexivity.
Qed.




(** ** The circuit breaker *)

Lemma breakerConsistent_initially (env : Env) :
  breakerConsistent env initialWorld.
Proof. intro H. discriminate H. Qed.

(** A call that is let through reaches the transport at once, and at most
    three times. *)
Lemma fetchWithRetry_attempts (env : Env) (w : World) :
  let w' := snd (fetchWithRetry env 3 1000 w) in
  (exists rest, trace w' = trace w ++ HttpGet :: rest)
  /\ (httpCalls w < httpCalls w' <= httpCalls w + 3)%nat
  /\ failureCount w' = failureCount w
  /\ lastFailureTime w' = lastFailureTime w
  /\ circuitOpen w' = circuitOpen w.
Proof.
  cbv zeta. unfold fetchWithRetry.
  change (Z.to_nat 3) with 3%nat.
  destruct (fetchLoop_frame env 3 1000 3 1 w)
    as (F1 & F2 & F3 & _ & F5 & _ & _).
  split; [|split; [|split; [exact F1|split; [exact F2|exact F3]]]].
  - rewrite fetchLoop_step. cbv zeta.
    destruct (httpGet_effect env w) as (w1 & Hget & _ & Htrace & _).
    rewrite Hget. cbn [snd].
    assert (Hdone : exists rest, trace w1 = trace w ++ HttpGet :: rest)
      by (exists []; exact Htrace).
    destruct (outcomeAt env w 0) as [data|status statusText];
      [exact Hdone|].
    destruct (isClientError status); [exact Hdone|].
    destruct (1 =? 3); [exact Hdone|].
    destruct (fetchLoop_frame env 3 1000 2 (1 + 1)
                (snd (sleep (1000 * 2 ^ (1 - 1)) w1)))
      as (_ & _ & _ & _ & _ & (more & Hmore) & _).
    rewrite Hmore. simpl trace at 1. rewrite Htrace, <- !app_assoc.
    eexists. reflexivity.
  - split; [|lia].
    rewrite fetchLoop_step. cbv zeta.
    destruct (httpGet_effect env w) as (w1 & Hget & Hcalls & _).
    rewrite Hget. cbn [snd].
    destruct (outcomeAt env w 0) as [data|status statusText]; [simpl; lia|].
    destruct (isClientError status); [simpl; lia|].
    destruct (1 =? 3); [simpl; lia|].
    destruct (fetchLoop_frame env 3 1000 2 (1 + 1)
                (snd (sleep (1000 * 2 ^ (1 - 1)) w1)))
      as (_ & _ & _ & _ & Hle & _).
    simpl httpCalls at 1 in Hle. lia.
Qed.

(** C3. From a consistent breaker state, one outer call leaves a consistent
    state, and: after a failed call the circuit is open exactly when the
    failure count has reached the threshold; while the circuit is open and
    less than the reset timeout has passed since the last failure, the call
    fails with the service-unavailable error and touches nothing, the
    transport included; once the timeout has passed the call goes to the
    transport, and a call that goes through and succeeds resets the count to
    zero, clears the time of the last failure and closes the circuit; a call
    that goes through and fails adds exactly one to the count, however many
    of its one to three attempts were made. *)
Theorem circuit_breaker_transitions (env : Env) (w : World) :
  breakerConsistent env w ->
  let outcome := fst (fetchWithCircuitBreaker env w) in
  let w' := snd (fetchWithCircuitBreaker env w) in
  breakerConsistent env w'
  /\ (forall e, outcome = Throw e ->
        circuitOpen w' = (failureThreshold env <=? failureCount w'))
  /\ (forall t,
        circuitOpen w = true -> lastFailureTime w = Some t ->
        clock w - t < circuitTimeout env ->
        outcome = Throw CircuitOpen
        /\ getStatus CircuitOpen = HttpStatus.SERVICE_UNAVAILABLE
        /\ w' = w)
  /\ (forall t,
        circuitOpen w = true -> lastFailureTime w = Some t ->
        circuitTimeout env <= clock w - t ->
        rejects env w = false
        /\ exists rest, trace w' = trace w ++ HttpGet :: rest)
  /\ (forall rates,
        rejects env w = false -> outcome = Ok rates ->
        failureCount w' = 0 /\ lastFailureTime w' = None
        /\ circuitOpen w' = false)
  /\ (forall e,
        rejects env w = false -> outcome = Throw e ->
        failureCount w' = failureCount w + 1
        /\ lastFailureTime w' = Some (clock w')
        /\ (httpCalls w < httpCalls w' <= httpCalls w + 3)%nat).
Proof.
  intros Hcons outcome w'.
  assert (Hlast : forall t, lastFailureTime w = Some t ->
                            lastFailureOrZero w = t).
  { intros t Ht. unfold lastFailureOrZero. rewrite Ht.
    destruct (t =? 0) eqn:H0; [|reflexivity].
    apply Z.eqb_eq in H0. now subst. }
  destruct (fetchWithRetry_attempts env w)
    as (Htrace & Hcalls & Hcount & Hlasttime & Hopen).
  cbv zeta in Htrace, Hcalls, Hcount, Hlasttime, Hopen.
  subst outcome w'. unfold fetchWithCircuitBreaker.
  destruct (rejects env w) eqn:Hrej.
  - (* the call is refused *)
    cbn [fst snd].
    unfold rejects in Hrej. apply andb_true_iff in Hrej.
    destruct Hrej as (Hisopen & Hearly). apply Z.ltb_lt in Hearly.
    destruct (Hcons Hisopen) as (Hthreshold & t0 & Ht0).
    split; [exact Hcons|].
    split; [intros e _; rewrite Hisopen; symmetry; now apply Z.leb_le|].
    split; [intros t _ _ _; repeat split|].
    split; [|split; intros ? H; discriminate H].
    intros t _ Ht Hlate. rewrite (Hlast t Ht) in Hearly. lia.
  - destruct (fetchWithRetry env 3 1000 w) as [[rates|error] w1] eqn:Hfetch;
      cbn [fst snd] in *.
    + (* it goes through and succeeds *)
      split; [intro H; discriminate H|].
      split; [intros e H; discriminate H|].
      split.
      { intros t Hisopen Ht Hearly. exfalso.
        unfold rejects in Hrej. rewrite Hisopen, (Hlast t Ht) in Hrej.
        apply Z.ltb_ge in Hrej. lia. }
      split; [intros t _ _ _; split; [reflexivity|exact Htrace]|].
      split; [intros ? _ _; repeat split|].
      intros e _ H. discriminate H.
    + (* it goes through and fails *)
      unfold handleCircuitBreakerFailure. cbn.
      rewrite Hcount, Hopen.
      split.
      { intro Hnow. split; [|eexists; reflexivity].
        destruct (failureThreshold env <=? failureCount w + 1) eqn:Hreach.
        - now apply Z.leb_le.
        - destruct (Hcons Hnow) as (Hthreshold & _). lia. }
      split.
      { intros e _.
        destruct (failureThreshold env <=? failureCount w + 1) eqn:Hreach;
          [reflexivity|].
        destruct (circuitOpen w) eqn:Hisopen; [|reflexivity].
        destruct (Hcons Hisopen) as (Hthreshold & _).
        apply Z.leb_gt in Hreach. lia. }
      split.
      { intros t Hisopen Ht Hearly. exfalso.
        unfold rejects in Hrej. rewrite Hisopen, (Hlast t Ht) in Hrej.
        apply Z.ltb_ge in Hrej. lia. }
      split; [intros t _ _ _; split; [reflexivity|exact Htrace]|].
      split; [intros ? _ H; discriminate H|].
      intros e _ _. split; [reflexivity|]. split; [reflexivity|exact Hcalls].
Qed.

(** After three failed outer calls (nine attempts) the count is 3 and the
    circuit is open; the next call, made before the timeout has passed, is
    refused and changes nothing. *)
Lemma circuit_breaker_transitions_witness :
  breakerConsistent (mockEnv alwaysDown) afterThreeFailures
  /\ failureCount afterThreeFailures = 3
  /\ httpCalls afterThreeFailures = 9%nat
  /\ circuitOpen afterThreeFailures = true
  /\ fst (fetchWithCircuitBreaker (mockEnv alwaysDown) afterThreeFailures)
     = Throw CircuitOpen
  /\ snd (fetchWithCircuitBreaker (mockEnv alwaysDown) afterThreeFailures)
     = afterThreeFailures.
Proof.
  assert (Hcons : breakerConsistent (mockEnv alwaysDown) afterThreeFailures).
  { intros _. split.
    - vm_compute. discriminate.
    - exists 9000. vm_compute. reflexivity. }
  split; [exact Hcons|].
  split; [vm_compute; reflexivity|].
  split; [vm_compute; reflexivity|].
  split; [vm_compute; reflexivity|].
  destruct (circuit_breaker_transitions (mockEnv alwaysDown)
              afterThreeFailures Hcons) as (_ & _ & Hrefused & _).
  destruct (Hrefused 9000) as (Hout & _ & Hsame).
  - vm_compute. reflexivity.
  - vm_compute. reflexivity.
  - vm_compute. reflexivity.
  - split; [exact Hout|exact Hsame].
Defined.

(** * Further properties of the two services *)

(** ** The retrier, whatever the provider answers *)

(** Among the first [left] attempts there is a last one: the first that is
    not a retryable failure, or else attempt [left]. *)
Lemma last_attempt_exists (f : nat -> bool) :
  forall left, (0 < left)%nat ->
    exists k, (k < left)%nat
      /\ (forall i, (i < k)%nat -> f i = true)
      /\ (f k = false \/ S k = left).
Proof.
  induction left as [|left IH]; intros Hpos; [lia|].
  destruct left as [|left].
  - exists 0%nat. split; [lia|]. split; [intros i Hi; lia|now right].
  - destruct (IH ltac:(lia)) as (k & Hk & Hbefore & [Hstop|Hend]).
    + exists k. split; [lia|]. split; [exact Hbefore|now left].
    + destruct (f k) eqn:Hfk.
      * exists (S k). split; [lia|]. split; [|right; lia].
        intros i Hi. destruct (Nat.eq_dec i k) as [->|Hne];
          [exact Hfk|apply Hbefore; lia].
      * exists k. split; [lia|]. split; [exact Hbefore|now left].
Qed.

Lemma surfaced_never_FetchFailed (o : AxiosOutcome) :
  surfaced o <> Throw FetchFailed.
Proof.
  destruct o as [data|status statusText]; simpl; [discriminate|].
  destruct (isClientError status); discriminate.
Qed.

Lemma isClientError_range (status : option Z) :
  isClientError status = true ->
  exists st, status = Some st /\ isClientStatus st.
Proof.
  destruct status as [st|]; simpl; [|discriminate].
  rewrite !andb_true_iff, Z.leb_le, Z.ltb_lt.
  intros ((_ & H1) & H2). exists st. split; [reflexivity|]. split; assumption.
Qed.

(** X1. Whatever the provider answers, a run of the retrier with at least
    one attempt allowed makes between one and [retries] transport calls, the
    first at once, waits [delay * 2^(j-1)] after failed attempt [j] and never
    after the last call, and ends with the parsed rates, a provider 4xx or
    the exhausted-budget error: the error thrown after the loop is never
    reached.  With no attempt allowed, it is that error, and nothing is
    done. *)
Theorem fetchWithRetry_always (env : Env) (retries delay : Z) (w : World) :
  (1 <= retries ->
   exists k,
     Z.of_nat k < retries
     /\ trace (snd (fetchWithRetry env retries delay w))
        = trace w ++ failedAttempts delay 1 k ++ [HttpGet]
     /\ httpCalls (snd (fetchWithRetry env retries delay w))
        = (httpCalls w + S k)%nat
     /\ fst (fetchWithRetry env retries delay w)
        = surfaced (outcomeAt env w k)
     /\ fst (fetchWithRetry env retries delay w) <> Throw FetchFailed)
  /\ (retries <= 0 ->
      fetchWithRetry env retries delay w = (Throw FetchFailed, w)).
Proof.
  split.
  - intros Hretries.
    destruct (last_attempt_exists (fun i => retryable (outcomeAt env w i))
                (Z.to_nat retries) ltac:(lia))
      as (k & Hk & Hbefore & Hlast).
    destruct (fetchLoop_schedule env retries delay k (Z.to_nat retries) 1 w
                ltac:(lia) Hk Hbefore Hlast) as (Hout & Htrace & Hcalls).
    exists k. unfold fetchWithRetry.
    split; [lia|]. split; [exact Htrace|]. split; [exact Hcalls|].
    split; [exact Hout|]. rewrite Hout. apply surfaced_never_FetchFailed.
  - intros Hretries. unfold fetchWithRetry.
    replace (Z.to_nat retries) with 0%nat by lia. reflexivity.
Qed.

(** The default budget against the test fixture's provider: one call. *)
Lemma fetchWithRetry_always_witness :
  1 <= 3
  /\ exists k,
       Z.of_nat k < 3
       /\ httpCalls (snd (fetchWithRetry (mockEnv alwaysUp) 3 1000
                            initialWorld)) = (0 + S k)%nat
       /\ fst (fetchWithRetry (mockEnv alwaysUp) 3 1000 initialWorld)
          = surfaced (outcomeAt (mockEnv alwaysUp) initialWorld k).
Proof.
  assert (H : 1 <= 3) by lia.
  split; [exact H|].
  destruct (fetchWithRetry_always (mockEnv alwaysUp) 3 1000 initialWorld)
    as [Hsome _].
  destruct (Hsome H) as (k & Hk & _ & Hcalls & Hout & _).
  exists k. split; [exact Hk|]. split; [exact Hcalls|exact Hout].
Defined.

(** What the retrier throws, with its default budget. *)
Lemma fetchWithRetry_errors (env : Env) (w : World) (e : HttpException) :
  fst (fetchWithRetry env 3 1000 w) = Throw e ->
  e = RetriesExhausted
  \/ exists statusText st, e = ProviderError statusText st /\ isClientStatus st.
Proof.
  destruct (last_attempt_exists (fun i => retryable (outcomeAt env w i))
              3 ltac:(lia)) as (k & Hk & Hbefore & Hlast).
  destruct (fetchLoop_schedule env 3 1000 k 3 1 w
              ltac:(lia) Hk Hbefore Hlast) as (Hout & _).
  unfold fetchWithRetry. change (Z.to_nat 3) with 3%nat. rewrite Hout.
  unfold surfaced.
  destruct (outcomeAt env w k) as [data|status statusText]; [discriminate|].
  destruct (isClientError status) eqn:Hclient.
  - intro H. injection H as <-. right.
    destruct (isClientError_range _ Hclient) as (st & -> & Hrange).
    exists statusText, st. split; [reflexivity|exact Hrange].
  - intro H. injection H as <-. now left.
Qed.

(** A provider that is down makes the retrier fail. *)
Lemma fetchWithRetry_down (env : Env) (w : World) :
  providerDown env w ->
  exists e, fst (fetchWithRetry env 3 1000 w) = Throw e.
Proof.
  intros Hdown.
  destruct (last_attempt_exists (fun i => retryable (outcomeAt env w i))
              3 ltac:(lia)) as (k & Hk & Hbefore & Hlast).
  destruct (fetchLoop_schedule env 3 1000 k 3 1 w
              ltac:(lia) Hk Hbefore Hlast) as (Hout & _).
  unfold fetchWithRetry. change (Z.to_nat 3) with 3%nat. rewrite Hout.
  destruct (Hdown k) as (status & statusText & ->). unfold surfaced.
  destruct (isClientError status); eexists; reflexivity.
Qed.

(** ** What a call leaves alone *)

Lemma sameButCache_refl (w : World) : sameButCache w w.
Proof. repeat split. Qed.

Lemma sameButCache_setCache (c : CacheStore) (w : World) :
  sameButCache (setCache c w) w.
Proof. repeat split. Qed.

Lemma sameButCache_trans (w1 w2 w3 : World) :
  sameButCache w1 w2 -> sameButCache w2 w3 -> sameButCache w1 w3.
Proof.
  intros (A1 & A2 & A3 & A4 & A5 & A6) (B1 & B2 & B3 & B4 & B5 & B6).
  repeat split; congruence.
Qed.

Lemma fetchWithRetry_frame (env : Env) (w : World) :
  let w' := snd (fetchWithRetry env 3 1000 w) in
  failureCount w' = failureCount w
  /\ lastFailureTime w' = lastFailureTime w
  /\ circuitOpen w' = circuitOpen w
  /\ cache w' = cache w
  /\ (httpCalls w <= httpCalls w' <= httpCalls w + 3)%nat
  /\ (exists more, trace w' = trace w ++ more)
  /\ clock w <= clock w'.
Proof. exact (fetchLoop_frame env 3 1000 3 1 w). Qed.

(** The breaker changes no cache entry, never turns the clock back and
    makes three transport calls at most. *)
Lemma fetchWithCircuitBreaker_frame (env : Env) (w : World) :
  let w' := snd (fetchWithCircuitBreaker env w) in
  cache w' = cache w
  /\ clock w <= clock w'
  /\ (httpCalls w <= httpCalls w' <= httpCalls w + 3)%nat
  /\ exists more, trace w' = trace w ++ more.
Proof.
  cbv zeta. unfold fetchWithCircuitBreaker.
  destruct (rejects env w).
  - simpl. repeat split; try lia. exists []. now rewrite app_nil_r.
  - pose proof (fetchWithRetry_frame env w) as H. cbv zeta in H.
    destruct H as (_ & _ & _ & Hcache & Hcalls & Htrace & Hclock).
    destruct (fetchWithRetry env 3 1000 w) as [[rates|e] w1];
      simpl in *; repeat split; try assumption; lia.
Qed.

(** [getExchangeRates] either answers from the cache and leaves the world as
    it is, or goes through the breaker and then touches the cache only. *)
Lemma getExchangeRates_world (env : Env) (w : World) :
  snd (getExchangeRates env w) = w
  \/ (fst (cacheGetRates w) = Ok None
      /\ fst (getExchangeRates env w) = fst (fetchWithCircuitBreaker env w)
      /\ sameButCache (snd (getExchangeRates env w))
                      (snd (fetchWithCircuitBreaker env w))).
Proof.
  unfold getExchangeRates, bind, cacheGetRates.
  destruct (ratesEntry (cache w)) as [[rates expires]|].
  - destruct (clock w <? expires); [left; reflexivity|].
    right. split; [reflexivity|].
    destruct (fetchWithCircuitBreaker env w) as [[r|e] w1]; simpl;
      split; try reflexivity; apply sameButCache_refl
      || apply sameButCache_setCache.
  - right. split; [reflexivity|].
    destruct (fetchWithCircuitBreaker env w) as [[r|e] w1]; simpl;
      split; try reflexivity; apply sameButCache_refl
      || apply sameButCache_setCache.
Qed.

(** [convert] leaves the world as it is but for the cache, or as the breaker
    left it but for the cache. *)
Lemma convert_world (env : Env) (from to : string) (amount : AmountArg)
    (w : World) :
  sameButCache (snd (convert env from to amount w)) w
  \/ sameButCache (snd (convert env from to amount w))
                  (snd (fetchWithCircuitBreaker env w)).
Proof.
  unfold convert.
  destruct amount as [a|]; [|left; apply sameButCache_refl].
  destruct (PrimFloat.leb a 0); [left; apply sameButCache_refl|]. cbv zeta.
  destruct (noCode (getCurrencyCode env from));
    [left; apply sameButCache_refl|].
  destruct (noCode (getCurrencyCode env to));
    [left; apply sameButCache_refl|].
  unfold bind, ret.
  assert (Hget : snd (cacheGetConversion
                        (getConversionCacheKey from to a) w) = w).
  { unfold cacheGetConversion.
    destruct (find _ (conversionEntries (cache w))) as [[[k d] x]|];
      reflexivity. }
  destruct (cacheGetConversion (getConversionCacheKey from to a) w)
    as [[[dto|]|e] w0]; simpl in Hget; subst w0;
    [left; apply sameButCache_refl| |left; apply sameButCache_refl].
  assert (Hrates :
    sameButCache (snd (getExchangeRates env w)) w
    \/ sameButCache (snd (getExchangeRates env w))
                    (snd (fetchWithCircuitBreaker env w))).
  { destruct (getExchangeRates_world env w) as [->|(_ & _ & H)];
      [left; apply sameButCache_refl|right; exact H]. }
  destruct (getExchangeRates env w) as [[rates|e] w1]; cbn [snd] in *;
    [|exact Hrates].
  destruct (findRate rates _ _) as [rate|]; [|exact Hrates].
  destruct (calculateConversion a rate _ _) as [v|e]; [|exact Hrates].
  unfold throw, cacheSetConversion. cbn [snd].
  destruct Hrates as [H|H]; [left|right];
    (eapply sameButCache_trans; [apply sameButCache_setCache|exact H]).
Qed.

Lemma step_world (env : Env) (w : World) (c : Call) :
  (exists dt, 0 <= dt /\ step env w c = advance dt w)
  \/ sameButCache (step env w c) w
  \/ sameButCache (step env w c) (snd (fetchWithCircuitBreaker env w)).
Proof.
  destruct c as [from to amount| | | |dt]; simpl.
  - right. apply convert_world.
  - right. destruct (getExchangeRates_world env w) as [->|(_ & _ & H)];
      [left; apply sameButCache_refl|right; exact H].
  - right. left. repeat split.
  - right. left. repeat split.
  - left. exists (Z.max 0 dt). split; [lia|reflexivity].
Qed.

(** ** The breaker over any sequence of calls *)

Lemma breakerInvariant_sameButCache (env : Env) (w1 w2 : World) :
  sameButCache w1 w2 -> breakerInvariant env w2 -> breakerInvariant env w1.
Proof.
  intros (H1 & _ & _ & H4 & H5 & H6). unfold breakerInvariant.
  rewrite H1, H4, H5, H6. tauto.
Qed.

Lemma breakerInvariant_fetch (env : Env) (w : World) :
  1 <= failureThreshold env ->
  breakerInvariant env w ->
  breakerInvariant env (snd (fetchWithCircuitBreaker env w)).
Proof.
  intros Hthreshold (Hcount & Hiff & Hlast).
  unfold fetchWithCircuitBreaker.
  destruct (rejects env w); [repeat split; tauto|].
  pose proof (fetchWithRetry_frame env w) as H. cbv zeta in H.
  destruct H as (Fcount & _ & Fopen & _).
  destruct (fetchWithRetry env 3 1000 w) as [[rates|e] w1]; cbn [snd] in *.
  - unfold breakerInvariant. simpl.
    split; [lia|]. split; [|discriminate].
    split; [discriminate|lia].
  - unfold breakerInvariant, handleCircuitBreakerFailure. simpl.
    rewrite Fcount, Fopen.
    split; [lia|]. split.
    + destruct (failureThreshold env <=? failureCount w + 1) eqn:Hreach.
      * apply Z.leb_le in Hreach. tauto.
      * apply Z.leb_gt in Hreach. rewrite Hiff. lia.
    + intros _. exists (clock w1). split; [reflexivity|lia].
Qed.

(** X2. With a threshold of at least one, whatever the clients call and in
    whatever order, and however long they wait in between: the failure
    count is never negative, the circuit is open exactly when the count has
    reached the threshold, and while it is open the time of the last failure
    is on record and not in the future. *)
Theorem breaker_invariant_kept (env : Env) (calls : list Call) (w : World) :
  1 <= failureThreshold env ->
  breakerInvariant env w ->
  breakerInvariant env (run env calls w).
Proof.
  intros Hthreshold. revert w.
  induction calls as [|c calls IH]; intros w Hinv; [exact Hinv|].
  simpl. apply IH.
  destruct (step_world env w c) as [(dt & Hdt & ->)|[Hsame|Hsame]].
  - destruct Hinv as (Hcount & Hiff & Hlast).
    split; [exact Hcount|]. split; [exact Hiff|].
    intros Hopen. destruct (Hlast Hopen) as (t & Ht & Hle).
    exists t. split; [exact Ht|]. simpl. lia.
  - exact (breakerInvariant_sameButCache _ _ _ Hsame Hinv).
  - apply (breakerInvariant_sameButCache _ _ _ Hsame).
    now apply breakerInvariant_fetch.
Qed.

(** A process that starts, fails three times over, waits and converts. *)
Lemma breaker_invariant_kept_witness :
  1 <= failureThreshold (mockEnv alwaysDown)
  /\ breakerInvariant (mockEnv alwaysDown) initialWorld
  /\ breakerInvariant (mockEnv alwaysDown)
       (run (mockEnv alwaysDown)
            (CallGetExchangeRates :: CallGetExchangeRates
               :: CallGetExchangeRates :: Wait 500
               :: CallConvert "USD" "UAH" (Num 100) :: nil)
            initialWorld).
Proof.
  assert (H1 : 1 <= failureThreshold (mockEnv alwaysDown))
    by (vm_compute; discriminate).
  assert (H2 : breakerInvariant (mockEnv alwaysDown) initialWorld).
  { split; [vm_compute; discriminate|].
    split; [|discriminate].
    split; [discriminate|]. vm_compute. intro H. exfalso. now apply H. }
  split; [exact H1|]. split; [exact H2|].
  exact (breaker_invariant_kept _ _ _ H1 H2).
Defined.

(** ** The breaker against a provider that is down *)

Lemma providerDown_later (env : Env) (w w' : World) :
  providerDown env w -> (httpCalls w <= httpCalls w')%nat ->
  providerDown env w'.
Proof.
  intros Hdown Hle i.
  destruct (Hdown (i + (httpCalls w' - httpCalls w))%nat)
    as (status & statusText & H).
  exists status, statusText. rewrite <- H. unfold outcomeAt.
  f_equal. f_equal. lia.
Qed.

Lemma getExchangeRates_miss (env : Env) (w : World) :
  fst (cacheGetRates w) = Ok None ->
  getExchangeRates env w =
  match fetchWithCircuitBreaker env w with
  | (Ok rates, w') =>
      (Ok rates,
       setCache (mkCache (Some (rates, clock w' + cacheTtl env * 1000))
                         (conversionEntries (cache w'))) w')
  | (Throw e, w') => (Throw e, w')
  end.
Proof.
  unfold getExchangeRates, bind, cacheGetRates.
  destruct (ratesEntry (cache w)) as [[rates expires]|];
    [destruct (clock w <? expires); [discriminate|]|];
    intros _; destruct (fetchWithCircuitBreaker env w) as [[r|e] w1];
    reflexivity.
Qed.

(** A call that is let through and fails. *)
Lemma fetchWithCircuitBreaker_failure (env : Env) (w : World)
    (e : HttpException) :
  rejects env w = false ->
  fst (fetchWithCircuitBreaker env w) = Throw e ->
  let w' := snd (fetchWithCircuitBreaker env w) in
  failureCount w' = failureCount w + 1
  /\ circuitOpen w'
     = (if failureThreshold env <=? failureCount w + 1 then true
        else circuitOpen w)
  /\ lastFailureTime w' = Some (clock w')
  /\ cache w' = cache w
  /\ (httpCalls w < httpCalls w' <= httpCalls w + 3)%nat.
Proof.
  intros Hrej. unfold fetchWithCircuitBreaker. rewrite Hrej.
  pose proof (fetchWithRetry_frame env w) as F.
  pose proof (fetchWithRetry_attempts env w) as A. cbv zeta in F, A.
  destruct F as (Fcount & _ & Fopen & Fcache & _).
  destruct A as (_ & Hcalls & _).
  destruct (fetchWithRetry env 3 1000 w) as [[rates|e'] w1]; cbn [fst snd] in *;
    [discriminate|].
  intros _. unfold handleCircuitBreakerFailure. simpl.
  rewrite Fcount, Fopen. repeat split; try assumption; lia.
Qed.

Lemma fetchWithCircuitBreaker_down (env : Env) (w : World) :
  providerDown env w -> rejects env w = false ->
  exists e, fst (fetchWithCircuitBreaker env w) = Throw e.
Proof.
  intros Hdown Hrej.
  destruct (fetchWithRetry_down env w Hdown) as (e & He).
  exists e. unfold fetchWithCircuitBreaker. rewrite Hrej.
  destruct (fetchWithRetry env 3 1000 w) as [[rates|e'] w1];
    simpl in *; congruence.
Qed.

Lemma rejects_after_failure (env : Env) (w : World) (dt : Z) :
  circuitOpen w = true -> lastFailureTime w = Some (clock w) ->
  rejects env (advance dt w) = (dt <? circuitTimeout env).
Proof.
  intros Hopen Hlast. unfold rejects, lastFailureOrZero. simpl.
  rewrite Hopen, Hlast. simpl.
  destruct (clock w =? 0) eqn:H0.
  - apply Z.eqb_eq in H0. rewrite H0. f_equal. lia.
  - f_equal. lia.
Qed.

(** One call of [getExchangeRates] with nothing cached, the circuit
    letting it through and the provider down. *)
Lemma getExchangeRates_down (env : Env) (w : World) :
  providerDown env w ->
  ratesEntry (cache w) = None ->
  rejects env w = false ->
  let w' := snd (getExchangeRates env w) in
  (exists e, fst (getExchangeRates env w) = Throw e)
  /\ failureCount w' = failureCount w + 1
  /\ circuitOpen w'
     = (if failureThreshold env <=? failureCount w + 1 then true
        else circuitOpen w)
  /\ lastFailureTime w' = Some (clock w')
  /\ cache w' = cache w
  /\ (httpCalls w < httpCalls w' <= httpCalls w + 3)%nat.
Proof.
  intros Hdown Hcache Hrej. cbv zeta.
  rewrite getExchangeRates_miss
    by (unfold cacheGetRates; rewrite Hcache; reflexivity).
  destruct (fetchWithCircuitBreaker_down env w Hdown Hrej) as (e & He).
  pose proof (fetchWithCircuitBreaker_failure env w e Hrej He) as H.
  cbv zeta in H.
  destruct (fetchWithCircuitBreaker env w) as [[rates|e'] w1];
    cbn [fst snd] in *; [discriminate|].
  split; [exists e'; reflexivity|exact H].
Qed.

Lemma downRun (env : Env) :
  forall (n : nat) (w : World),
    providerDown env w ->
    ratesEntry (cache w) = None ->
    circuitOpen w = false ->
    failureCount w < failureThreshold env ->
    failureCount w + Z.of_nat n <= failureThreshold env ->
    let w' := run env (repeat CallGetExchangeRates n) w in
    failureCount w' = failureCount w + Z.of_nat n
    /\ circuitOpen w'
       = (failureThreshold env <=? failureCount w + Z.of_nat n)
    /\ (httpCalls w + n <= httpCalls w' <= httpCalls w + 3 * n)%nat
    /\ ratesEntry (cache w') = None
    /\ ((1 <= n)%nat -> lastFailureTime w' = Some (clock w')).
Proof.
  induction n as [|n IH]; intros w Hdown Hcache Hclosed Hbelow Hroom;
    cbv zeta.
  - simpl. rewrite Z.add_0_r.
    split; [reflexivity|]. split.
    { rewrite Hclosed. symmetry. apply Z.leb_gt. exact Hbelow. }
    split; [lia|]. split; [exact Hcache|lia].
  - assert (Hrej : rejects env w = false)
      by (unfold rejects; rewrite Hclosed; reflexivity).
    pose proof (getExchangeRates_down env w Hdown Hcache Hrej) as H.
    cbv zeta in H.
    destruct H as (_ & Hcount & Hopen & Hlast & Hkept & Hcalls).
    rewrite Hclosed in Hopen.
    change (run env (repeat CallGetExchangeRates (S n)) w)
      with (run env (repeat CallGetExchangeRates n)
                (snd (getExchangeRates env w))).
    set (w1 := snd (getExchangeRates env w)) in *.
    destruct n as [|n].
    + simpl run. rewrite Hcount, Hopen.
      split; [lia|].
      split; [destruct (failureThreshold env <=? failureCount w + 1) eqn:E;
              symmetry; [apply Z.leb_le; apply Z.leb_le in E; lia
                        |apply Z.leb_gt; apply Z.leb_gt in E; lia]|].
      split; [lia|]. split; [congruence|intros _; exact Hlast].
    + assert (Hbelow1 : failureCount w1 < failureThreshold env) by lia.
      assert (Hclosed1 : circuitOpen w1 = false).
      { rewrite Hopen.
        destruct (failureThreshold env <=? failureCount w + 1) eqn:E;
          [apply Z.leb_le in E; lia|reflexivity]. }
      destruct (IH w1) as (I1 & I2 & I3 & I4 & I5).
      * apply (providerDown_later env w); [exact Hdown|lia].
      * congruence.
      * exact Hclosed1.
      * exact Hbelow1.
      * lia.
      * rewrite I1, I2, Hcount.
        split; [lia|]. split; [f_equal; lia|].
        split; [lia|]. split; [exact I4|intros _; apply I5; lia].
Qed.

(** X3. With the provider down, nothing cached and the circuit closed below
    the threshold, each call of [getExchangeRates] adds one to the failure
    count, whatever the number of its attempts (one to three transport
    calls each); the circuit stays closed until the count reaches the
    threshold and is open then; and the call after that, made before the
    reset timeout has passed, fails with the circuit-open error and leaves
    the world as it is. *)
Theorem breaker_opens_at_threshold (env : Env) (w : World) (n : nat) :
  providerDown env w ->
  ratesEntry (cache w) = None ->
  circuitOpen w = false ->
  failureCount w < failureThreshold env ->
  failureCount w + Z.of_nat n <= failureThreshold env ->
  let w' := run env (repeat CallGetExchangeRates n) w in
  failureCount w' = failureCount w + Z.of_nat n
  /\ circuitOpen w' = (failureThreshold env <=? failureCount w + Z.of_nat n)
  /\ (httpCalls w + n <= httpCalls w' <= httpCalls w + 3 * n)%nat
  /\ (failureCount w + Z.of_nat n = failureThreshold env ->
      forall dt, 0 <= dt < circuitTimeout env ->
        getExchangeRates env (advance dt w')
        = (Throw CircuitOpen, advance dt w')).
Proof.
  intros Hdown Hcache Hclosed Hbelow Hroom.
  destruct (downRun env n w Hdown Hcache Hclosed Hbelow Hroom)
    as (Hcount & Hopen & Hcalls & Hnone & Hlast).
  cbv zeta. split; [exact Hcount|]. split; [exact Hopen|].
  split; [exact Hcalls|].
  intros Hreached dt Hdt.
  set (w' := run env (repeat CallGetExchangeRates n) w) in *.
  assert (Hisopen : circuitOpen w' = true)
    by (rewrite Hopen; apply Z.leb_le; lia).
  assert (Hrej : rejects env (advance dt w') = true).
  { rewrite rejects_after_failure; [apply Z.ltb_lt; lia|exact Hisopen|].
    apply Hlast. lia. }
  rewrite getExchangeRates_miss
    by (unfold cacheGetRates; simpl; rewrite Hnone; reflexivity).
  unfold fetchWithCircuitBreaker. rewrite Hrej. reflexivity.
Qed.

(** The breaker of the test suite (threshold 3, timeout 1000): three failed
    calls open it, and the fourth, 500 ms later, is refused. *)
Lemma breaker_opens_at_threshold_witness :
  providerDown (mockEnv alwaysDown) initialWorld
  /\ failureCount
       (run (mockEnv alwaysDown) (repeat CallGetExchangeRates 3) initialWorld)
     = 3
  /\ circuitOpen
       (run (mockEnv alwaysDown) (repeat CallGetExchangeRates 3) initialWorld)
     = true
  /\ fst (getExchangeRates (mockEnv alwaysDown)
            (advance 500
               (run (mockEnv alwaysDown) (repeat CallGetExchangeRates 3)
                    initialWorld)))
     = Throw CircuitOpen.
Proof.
  assert (Hdown : providerDown (mockEnv alwaysDown) initialWorld)
    by (intro i; eexists; eexists; reflexivity).
  destruct (breaker_opens_at_threshold (mockEnv alwaysDown) initialWorld 3
              Hdown eq_refl eq_refl eq_refl ltac:(vm_compute; discriminate))
    as (Hcount & Hopen & _ & Hrefused).
  split; [exact Hdown|]. split; [exact Hcount|]. split; [exact Hopen|].
  rewrite (Hrefused eq_refl 500 ltac:(split; [discriminate|reflexivity])).
  reflexivity.
Defined.

(** ** The half-open circuit *)

(** X4. When the circuit is open, the reset timeout has passed and the
    trial call fails, the circuit stays open, the count goes up by one and
    the timer starts again: every call made less than the reset timeout
    after the trial is refused and leaves the world as it is, and a call
    made at the timeout or later is let through. *)
Theorem half_open_failure_reopens (env : Env) (w : World) (e : HttpException) :
  circuitOpen w = true ->
  rejects env w = false ->
  fst (fetchWithCircuitBreaker env w) = Throw e ->
  let w' := snd (fetchWithCircuitBreaker env w) in
  circuitOpen w' = true
  /\ failureCount w' = failureCount w + 1
  /\ (forall dt, 0 <= dt < circuitTimeout env ->
        fetchWithCircuitBreaker env (advance dt w')
        = (Throw CircuitOpen, advance dt w'))
  /\ (forall dt, circuitTimeout env <= dt ->
        rejects env (advance dt w') = false).
Proof.
  intros Hopen Hrej He.
  pose proof (fetchWithCircuitBreaker_failure env w e Hrej He) as H.
  cbv zeta in *. destruct H as (Hcount & Hstill & Hlast & _).
  rewrite Hopen in Hstill.
  assert (Hopen' : circuitOpen (snd (fetchWithCircuitBreaker env w)) = true)
    by (rewrite Hstill; destruct (_ <=? _); reflexivity).
  split; [exact Hopen'|]. split; [exact Hcount|]. split.
  - intros dt Hdt. unfold fetchWithCircuitBreaker at 1 3.
    rewrite (rejects_after_failure _ _ _ Hopen' Hlast).
    replace (dt <? circuitTimeout env) with true
      by (symmetry; apply Z.ltb_lt; lia).
    reflexivity.
  - intros dt Hdt. rewrite (rejects_after_failure _ _ _ Hopen' Hlast).
    apply Z.ltb_ge. exact Hdt.
Qed.

(** The open circuit of the test suite, 1100 ms later, with the provider
    still down. *)
Lemma half_open_failure_reopens_witness :
  circuitOpen (advance 1100 afterThreeFailures) = true
  /\ rejects (mockEnv alwaysDown) (advance 1100 afterThreeFailures) = false
  /\ failureCount
       (snd (fetchWithCircuitBreaker (mockEnv alwaysDown)
               (advance 1100 afterThreeFailures)))
     = 4
  /\ fst (fetchWithCircuitBreaker (mockEnv alwaysDown)
            (advance 999
               (snd (fetchWithCircuitBreaker (mockEnv alwaysDown)
                       (advance 1100 afterThreeFailures)))))
     = Throw CircuitOpen.
Proof.
  assert (Hopen : circuitOpen (advance 1100 afterThreeFailures) = true)
    by (vm_compute; reflexivity).
  assert (Hrej : rejects (mockEnv alwaysDown)
                   (advance 1100 afterThreeFailures) = false)
    by (vm_compute; reflexivity).
  assert (He : fst (fetchWithCircuitBreaker (mockEnv alwaysDown)
                      (advance 1100 afterThreeFailures))
               = Throw RetriesExhausted)
    by (vm_compute; reflexivity).
  destruct (half_open_failure_reopens _ _ _ Hopen Hrej He)
    as (_ & Hcount & Hrefused & _).
  split; [exact Hopen|]. split; [exact Hrej|]. split; [exact Hcount|].
  rewrite (Hrefused 999 ltac:(split; [discriminate|reflexivity])).
  reflexivity.
Defined.

(** X5. A call that the breaker lets through, with nothing cached, and that
    the provider answers at the first attempt returns the parsed rates after
    exactly one transport call and no wait, closes the circuit, resets the
    failure count and the time of the last failure, and caches the rates:
    for the whole time to live a further call returns them from the cache
    and leaves the world as it is, whatever the provider would answer. *)
Theorem first_attempt_success (env : Env) (w : World)
    (data : list MonobankRate) :
  fst (cacheGetRates w) = Ok None ->
  rejects env w = false ->
  outcomeAt env w 0 = Response data ->
  let w' := snd (getExchangeRates env w) in
  fst (getExchangeRates env w) = Ok data
  /\ trace w' = trace w ++ [HttpGet]
  /\ httpCalls w' = S (httpCalls w)
  /\ (failureCount w' = 0 /\ lastFailureTime w' = None
      /\ circuitOpen w' = false)
  /\ (forall dt, dt < cacheTtl env * 1000 ->
        getExchangeRates env (advance dt w') = (Ok data, advance dt w')).
Proof.
  intros Hmiss Hrej Hfirst. cbv zeta.
  rewrite (getExchangeRates_miss env w Hmiss).
  unfold fetchWithCircuitBreaker. rewrite Hrej.
  unfold fetchWithRetry. change (Z.to_nat 3) with 3%nat.
  rewrite fetchLoop_step. cbv zeta. rewrite Hfirst.
  destruct (httpGet_effect env w)
    as (w1 & Hget & Hcalls & Htrace & _).
  rewrite Hget. cbn [fst snd]. simpl.
  split; [reflexivity|]. split; [exact Htrace|]. split; [exact Hcalls|].
  split; [repeat split|].
  intros dt Hdt. unfold getExchangeRates, bind, cacheGetRates. simpl.
  replace (clock w1 + dt <? clock w1 + cacheTtl env * 1000) with true
    by (symmetry; apply Z.ltb_lt; lia).
  reflexivity.
Qed.

(** The open circuit of the test suite, 1100 ms later, with the provider
    back: the trial call succeeds. *)
Lemma first_attempt_success_witness :
  rejects (mockEnv alwaysUp) (advance 1100 afterThreeFailures) = false
  /\ fst (getExchangeRates (mockEnv alwaysUp)
            (advance 1100 afterThreeFailures)) = Ok mockRates
  /\ circuitOpen (snd (getExchangeRates (mockEnv alwaysUp)
                         (advance 1100 afterThreeFailures))) = false.
Proof.
  assert (Hrej : rejects (mockEnv alwaysUp)
                   (advance 1100 afterThreeFailures) = false)
    by (vm_compute; reflexivity).
  destruct (first_attempt_success (mockEnv alwaysUp)
              (advance 1100 afterThreeFailures) mockRates
              eq_refl Hrej eq_refl) as (Hout & _ & _ & (_ & _ & Hclosed) & _).
  split; [exact Hrej|]. split; [exact Hout|exact Hclosed].
Defined.

(** ** The conversion cache *)

Lemma sameConversionKey_refl (k : string * string * float) :
  sameConversionKey k k = true.
Proof.
  destruct k as [[f t] a]. unfold sameConversionKey, sameAmountText.
  rewrite !String.eqb_refl. unfold PrimFloat.is_nan.
  destruct (PrimFloat.eqb a a); reflexivity.
Qed.

Lemma cacheGetConversion_world (key : string * string * float) (w : World) :
  snd (cacheGetConversion key w) = w.
Proof.
  unfold cacheGetConversion.
  destruct (find _ (conversionEntries (cache w))) as [[[k d] x]|];
    reflexivity.
Qed.

Lemma cacheGetConversion_cases (key : string * string * float) (w : World) :
  (exists dto, cacheGetConversion key w = (Ok (Some dto), w))
  \/ cacheGetConversion key w = (Ok None, w).
Proof.
  unfold cacheGetConversion.
  destruct (find _ (conversionEntries (cache w))) as [[[k d] x]|];
    [left; exists d; reflexivity|right; reflexivity].
Qed.

(** A conversion found in the cache is the answer. *)
Lemma convert_hit (env : Env) (from to : string) (a : float) (w : World)
    (dto : ConvertResponseDto) :
  PrimFloat.leb a 0 = false ->
  noCode (getCurrencyCode env from) = false ->
  noCode (getCurrencyCode env to) = false ->
  fst (cacheGetConversion (getConversionCacheKey from to a) w)
  = Ok (Some dto) ->
  convert env from to (Num a) w = (Ok dto, w).
Proof.
  intros Hguard Hfrom Hto Hhit. unfold convert. cbv zeta.
  rewrite Hguard, Hfrom, Hto. unfold bind at 1.
  destruct (cacheGetConversion_cases (getConversionCacheKey from to a) w)
    as [(d & H)|H]; rewrite H in *; simpl in Hhit; [|discriminate].
  injection Hhit as ->. reflexivity.
Qed.

(** The two ways [convert] succeeds: from the cache, or through the
    resolver. *)
Lemma convert_ok_cases (env : Env) (from to : string) (amount : AmountArg)
    (w : World) (r : ConvertResponseDto) (w1 : World) :
  convert env from to amount w = (Ok r, w1) ->
  exists a,
    amount = Num a
    /\ PrimFloat.leb a 0 = false
    /\ noCode (getCurrencyCode env from) = false
    /\ noCode (getCurrencyCode env to) = false
    /\ ((fst (cacheGetConversion (getConversionCacheKey from to a) w)
         = Ok (Some r) /\ w1 = w)
        \/ (fst (cacheGetConversion (getConversionCacheKey from to a) w)
            = Ok None
            /\ exists rates w0 rate v,
                 getExchangeRates env w = (Ok rates, w0)
                 /\ findRate rates (codeOf (getCurrencyCode env from))
                                   (codeOf (getCurrencyCode env to))
                    = Some rate
                 /\ calculateConversion a rate
                      (codeOf (getCurrencyCode env from))
                      (codeOf (getCurrencyCode env to)) = Ok v
                 /\ r = responseOf from to a v
                 /\ w1 = cachedIn env from to a v w0)).
Proof.
  unfold convert.
  destruct amount as [a|]; [|discriminate].
  destruct (PrimFloat.leb a 0) eqn:Hguard; [discriminate|]. cbv zeta.
  destruct (noCode (getCurrencyCode env from)) eqn:Hfrom; [discriminate|].
  destruct (noCode (getCurrencyCode env to)) eqn:Hto; [discriminate|].
  intros H. exists a. repeat (split; [reflexivity || assumption|]).
  revert H. unfold bind at 1.
  destruct (cacheGetConversion_cases (getConversionCacheKey from to a) w)
    as [(d & Hc)|Hc]; rewrite Hc; cbn [fst].
  - unfold ret. intro H. injection H as -> ->. left. split; reflexivity.
  - unfold bind at 1.
    destruct (getExchangeRates env w) as [[rates|e] w0]; [|discriminate].
    destruct (findRate rates _ _) as [rate|] eqn:Hrate; [|discriminate].
    destruct (calculateConversion a rate _ _) as [v|e] eqn:Hv;
      [|discriminate].
    unfold bind, cacheSetConversion, ret. intro H. injection H as <- <-.
    right. split; [reflexivity|].
    exists rates, w0, rate, v. repeat (split; [reflexivity || assumption|]).
    reflexivity.
Qed.

(** A conversion that was just computed is found for its whole time to
    live. *)
Lemma cachedIn_hit (env : Env) (from to : string) (a v : float) (w0 : World)
    (dt : Z) :
  dt < conversionCacheTtl env * 1000 ->
  fst (cacheGetConversion (getConversionCacheKey from to a)
         (advance dt (cachedIn env from to a v w0)))
  = Ok (Some (responseOf from to a v)).
Proof.
  intros Hdt. unfold cacheGetConversion, cachedIn, cacheSetConversion.
  cbn [snd fst cache conversionEntries setCache advance clock find].
  rewrite sameConversionKey_refl. cbn [andb].
  replace (clock w0 + dt <? clock w0 + conversionCacheTtl env * 1000)
    with true by (symmetry; apply Z.ltb_lt; lia).
  reflexivity.
Qed.

Lemma advance_zero (w : World) : advance 0 w = w.
Proof. destruct w. unfold advance. simpl. now rewrite Z.add_0_r. Qed.

(** X6. With a positive time to live, [convert] is idempotent: a call that
    succeeded, made again with the same arguments in the world it left,
    returns the same response and changes nothing, so it reaches neither
    the provider nor the breaker; and a response that was computed through
    the resolver is served this way for the whole time to live. *)
Theorem convert_repeat_is_cached (env : Env) (from to : string)
    (amount : AmountArg) (w : World) (r : ConvertResponseDto) (w1 : World) :
  0 < conversionCacheTtl env ->
  convert env from to amount w = (Ok r, w1) ->
  convert env from to amount w1 = (Ok r, w1)
  /\ (w1 <> w ->
      forall dt, dt < conversionCacheTtl env * 1000 ->
        convert env from to amount (advance dt w1) = (Ok r, advance dt w1)).
Proof.
  intros Httl H.
  destruct (convert_ok_cases _ _ _ _ _ _ _ H)
    as (a & -> & Hguard & Hfrom & Hto & [(Hhit & ->)|(Hmiss & Hcomputed)]).
  - split; [now apply convert_hit|]. intros Hne. now elim Hne.
  - destruct Hcomputed as (rates & w0 & rate & v & _ & _ & _ & -> & ->).
    assert (Hserved : forall dt, dt < conversionCacheTtl env * 1000 ->
      convert env from to (Num a) (advance dt (cachedIn env from to a v w0))
      = (Ok (responseOf from to a v),
         advance dt (cachedIn env from to a v w0))).
    { intros dt Hdt. apply convert_hit; try assumption.
      now apply cachedIn_hit. }
    split; [|intros _; exact Hserved].
    rewrite <- (advance_zero (cachedIn env from to a v w0)).
    apply Hserved. lia.
Qed.

(** 100 USD into EUR twice at the test fixture: one transport call. *)
Lemma convert_repeat_is_cached_witness :
  0 < conversionCacheTtl (mockEnv alwaysUp)
  /\ fst (convert (mockEnv alwaysUp) "USD" "EUR" (Num 100)
            (snd (convert (mockEnv alwaysUp) "USD" "EUR" (Num 100)
                    initialWorld)))
     = fst (convert (mockEnv alwaysUp) "USD" "EUR" (Num 100) initialWorld)
  /\ httpCalls
       (snd (convert (mockEnv alwaysUp) "USD" "EUR" (Num 100)
               (snd (convert (mockEnv alwaysUp) "USD" "EUR" (Num 100)
                       initialWorld))))
     = 1%nat.
Proof.
  assert (Httl : 0 < conversionCacheTtl (mockEnv alwaysUp)) by reflexivity.
  assert (H : convert (mockEnv alwaysUp) "USD" "EUR" (Num 100) initialWorld
              = (Ok (responseOf "USD" "EUR" 100 (100 * (37.5 / 41.5))),
                 snd (convert (mockEnv alwaysUp) "USD" "EUR" (Num 100)
                        initialWorld)))
    by (vm_compute; reflexivity).
  destruct (convert_repeat_is_cached _ _ _ _ _ _ _ Httl H) as (Hagain & _).
  split; [exact Httl|]. rewrite Hagain. split; [|reflexivity].
  rewrite H. reflexivity.
Defined.

(** X7. Symbols are looked up without regard to case: two calls whose
    symbols differ in case only leave the same world, and either both
    succeed with the same response or both fail with errors of the same
    status. *)
Theorem convert_ignores_symbol_case (env : Env) (from to from' to' : string)
    (amount : AmountArg) (w : World) :
  toUpperCase from' = toUpperCase from ->
  toUpperCase to' = toUpperCase to ->
  snd (convert env from' to' amount w) = snd (convert env from to amount w)
  /\ match fst (convert env from' to' amount w),
           fst (convert env from to amount w) with
     | Ok r', Ok r => r' = r
     | Throw e', Throw e => getStatus e' = getStatus e
     | _, _ => False
     end.
Proof.
  intros Hfrom Hto.
  unfold convert, getCurrencyCode, getConversionCacheKey.
  rewrite Hfrom, Hto.
  destruct amount as [a|]; [|split; reflexivity].
  destruct (PrimFloat.leb a 0); [split; reflexivity|]. cbv zeta.
  destruct (noCode (CURRENCY_CODES env (toUpperCase from)));
    [split; reflexivity|].
  destruct (noCode (CURRENCY_CODES env (toUpperCase to)));
    [split; reflexivity|].
  unfold bind, ret, throw.
  destruct (cacheGetConversion (toUpperCase from, toUpperCase to, a) w)
    as [[[dto|]|e] w0]; try (split; reflexivity).
  destruct (getExchangeRates env w0) as [[rates|e] w1];
    [|split; reflexivity].
  destruct (findRate rates _ _) as [rate|]; [|split; reflexivity].
  destruct (calculateConversion a rate _ _) as [v|e]; [|split; reflexivity].
  split; reflexivity.
Qed.

(** The test of the suite: ["usd"], ["uah"] against ["USD"], ["UAH"]. *)
Lemma convert_ignores_symbol_case_witness :
  toUpperCase "usd" = toUpperCase "USD"
  /\ toUpperCase "uah" = toUpperCase "UAH"
  /\ snd (convert (mockEnv alwaysUp) "usd" "uah" (Num 100) initialWorld)
     = snd (convert (mockEnv alwaysUp) "USD" "UAH" (Num 100) initialWorld).
Proof.
  assert (H1 : toUpperCase "usd" = toUpperCase "USD") by reflexivity.
  assert (H2 : toUpperCase "uah" = toUpperCase "UAH") by reflexivity.
  split; [exact H1|]. split; [exact H2|].
  exact (proj1 (convert_ignores_symbol_case (mockEnv alwaysUp)
                  "USD" "UAH" "usd" "uah" (Num 100) initialWorld H1 H2)).
Defined.

Lemma getExchangeRates_cache (env : Env) (w : World) :
  conversionEntries (cache (snd (getExchangeRates env w)))
  = conversionEntries (cache w)
  /\ (forall e, fst (getExchangeRates env w) = Throw e ->
        cache (snd (getExchangeRates env w)) = cache w).
Proof.
  pose proof (fetchWithCircuitBreaker_frame env w) as F. cbv zeta in F.
  destruct F as (Fcache & _).
  unfold getExchangeRates, bind, cacheGetRates, cacheSetRates, ret.
  destruct (ratesEntry (cache w)) as [[rates expires]|];
    [destruct (clock w <? expires); [split; [reflexivity|discriminate]|]|];
    destruct (fetchWithCircuitBreaker env w) as [[r|e] w1];
    cbn [fst snd] in *; simpl; rewrite Fcache;
    (split; [reflexivity|intros e' H; try discriminate H; reflexivity]).
Qed.

(** X8. Failures are never cached: a call of [convert] that fails leaves
    the cached conversions as they were, and a call of [getExchangeRates]
    that fails leaves the whole cache as it was. *)
Theorem failures_are_not_cached (env : Env) (from to : string)
    (amount : AmountArg) (w : World) (e : HttpException) :
  (fst (convert env from to amount w) = Throw e ->
   conversionEntries (cache (snd (convert env from to amount w)))
   = conversionEntries (cache w))
  /\ (fst (getExchangeRates env w) = Throw e ->
      cache (snd (getExchangeRates env w)) = cache w).
Proof.
  split; [|apply getExchangeRates_cache].
  unfold convert.
  destruct amount as [a|]; [|reflexivity].
  destruct (PrimFloat.leb a 0); [reflexivity|]. cbv zeta.
  destruct (noCode (getCurrencyCode env from)); [reflexivity|].
  destruct (noCode (getCurrencyCode env to)); [reflexivity|].
  unfold bind, ret, throw.
  destruct (cacheGetConversion_cases (getConversionCacheKey from to a) w)
    as [(d & Hc)|Hc]; rewrite Hc; [discriminate|].
  destruct (getExchangeRates_cache env w) as (Hkept & _).
  destruct (getExchangeRates env w) as [[rates|e'] w1]; cbn [snd] in *;
    [|intros _; exact Hkept].
  destruct (findRate rates _ _) as [rate|]; [|intros _; exact Hkept].
  destruct (calculateConversion a rate _ _) as [v|e'];
    [discriminate|intros _; exact Hkept].
Qed.

(** With the provider down nothing is written. *)
Lemma failures_are_not_cached_witness :
  fst (convert (mockEnv alwaysDown) "USD" "UAH" (Num 100) initialWorld)
  = Throw RetriesExhausted
  /\ conversionEntries
       (cache (snd (convert (mockEnv alwaysDown) "USD" "UAH" (Num 100)
                      initialWorld)))
     = [].
Proof.
  assert (H : fst (convert (mockEnv alwaysDown) "USD" "UAH" (Num 100)
                     initialWorld) = Throw RetriesExhausted)
    by (vm_compute; reflexivity).
  split; [exact H|].
  exact (proj1 (failures_are_not_cached (mockEnv alwaysDown) "USD" "UAH"
                  (Num 100) initialWorld RetriesExhausted) H).
Defined.

(** ** What [convert] fails with *)

Lemma getExchangeRates_errors (env : Env) (w : World) (e : HttpException) :
  fst (getExchangeRates env w) = Throw e ->
  e = CircuitOpen \/ e = RetriesExhausted
  \/ exists statusText st, e = ProviderError statusText st /\ isClientStatus st.
Proof.
  unfold getExchangeRates, bind, cacheGetRates, ret.
  assert (Hfetch : fst (fetchWithCircuitBreaker env w) = Throw e ->
    e = CircuitOpen \/ e = RetriesExhausted
    \/ exists statusText st,
         e = ProviderError statusText st /\ isClientStatus st).
  { unfold fetchWithCircuitBreaker.
    destruct (rejects env w); [intro H; injection H as <-; now left|].
    pose proof (fetchWithRetry_errors env w e) as H.
    destruct (fetchWithRetry env 3 1000 w) as [[rates|e'] w1];
      cbn [fst] in *; [discriminate|].
    intro H'. right. apply H. exact H'. }
  destruct (ratesEntry (cache w)) as [[rates expires]|];
    [destruct (clock w <? expires); [discriminate|]|];
    destruct (fetchWithCircuitBreaker env w) as [[r|e'] w1];
    cbn [fst] in *; try discriminate; exact Hfetch.
Qed.

Lemma calculateConversion_errors (a : float) (rate : MonobankRate)
    (fromCode toCode : Z) (e : HttpException) :
  calculateConversion a rate fromCode toCode = Throw e ->
  e = IncompleteRateData.
Proof.
  unfold calculateConversion, getRequiredRate.
  destruct (toCode =? UAH_CODE); [|destruct (fromCode =? UAH_CODE)];
    match goal with
    | |- context [match ?o with Some _ => _ | None => _ end] =>
        destruct o as [v|]; [destruct (JS.truthy v)|]
    end;
    intro H; try discriminate H; injection H as <-; reflexivity.
Qed.

(** X9. Whatever the arguments, the cache, the breaker and the provider, a
    failure of [convert] is one of: the invalid-amount or the
    unsupported-currency error for one of the two symbols (status 400),
    rate-not-found for the two symbols (404), incomplete-rate-data,
    circuit-open or retries-exhausted (503), or a provider error with the
    provider's status, which is in 400..499.  So the status is in 400..499
    or it is 503. *)
Theorem convert_error_taxonomy (env : Env) (from to : string)
    (amount : AmountArg) (w : World) (e : HttpException) :
  fst (convert env from to amount w) = Throw e ->
  (e = InvalidAmount \/ e = UnsupportedCurrency from
   \/ e = UnsupportedCurrency to \/ e = RateNotFound from to
   \/ e = IncompleteRateData \/ e = CircuitOpen \/ e = RetriesExhausted
   \/ exists statusText st,
        e = ProviderError statusText st /\ isClientStatus st)
  /\ (isClientStatus (getStatus e)
      \/ getStatus e = HttpStatus.SERVICE_UNAVAILABLE).
Proof.
  intros H.
  assert (Hkind :
    e = InvalidAmount \/ e = UnsupportedCurrency from
    \/ e = UnsupportedCurrency to \/ e = RateNotFound from to
    \/ e = IncompleteRateData \/ e = CircuitOpen \/ e = RetriesExhausted
    \/ exists statusText st,
         e = ProviderError statusText st /\ isClientStatus st).
  { revert H. unfold convert.
    destruct amount as [a|]; [|intro H; injection H as <-; tauto].
    destruct (PrimFloat.leb a 0); [intro H; injection H as <-; tauto|].
    cbv zeta.
    destruct (noCode (getCurrencyCode env from));
      [intro H; injection H as <-; tauto|].
    destruct (noCode (getCurrencyCode env to));
      [intro H; injection H as <-; tauto|].
    unfold bind, ret, throw.
    destruct (cacheGetConversion_cases (getConversionCacheKey from to a) w)
      as [(d & Hc)|Hc]; rewrite Hc; [discriminate|].
    pose proof (getExchangeRates_errors env w) as Hrates.
    destruct (getExchangeRates env w) as [[rates|e'] w1]; cbn [fst] in *.
    - destruct (findRate rates _ _) as [rate|];
        [|intro H; injection H as <-; tauto].
      pose proof (calculateConversion_errors a rate
                    (codeOf (getCurrencyCode env from))
                    (codeOf (getCurrencyCode env to))) as Hcalc.
      destruct (calculateConversion a rate _ _) as [v|e'']; [discriminate|].
      intro H. injection H as <-. rewrite (Hcalc e'' eq_refl). tauto.
    - intro H. injection H as <-.
      destruct (Hrates e' eq_refl) as [->|[->|Hprov]]; tauto. }
  split; [exact Hkind|].
  unfold isClientStatus.
  destruct Hkind as [->|[->|[->|[->|[->|[->|[->|(txt & st & -> & Hst)]]]]]]];
    simpl; unfold HttpStatus.BAD_REQUEST, HttpStatus.NOT_FOUND,
      HttpStatus.SERVICE_UNAVAILABLE; try (left; lia); try (right; reflexivity).
  left. exact Hst.
Qed.

(** A currency the table does not know. *)
Lemma convert_error_taxonomy_witness :
  fst (convert (mockEnv alwaysUp) "XXX" "UAH" (Num 100) initialWorld)
  = Throw (UnsupportedCurrency "XXX")
  /\ (isClientStatus (getStatus (UnsupportedCurrency "XXX"))
      \/ getStatus (UnsupportedCurrency "XXX")
         = HttpStatus.SERVICE_UNAVAILABLE).
Proof.
  assert (H : fst (convert (mockEnv alwaysUp) "XXX" "UAH" (Num 100)
                     initialWorld) = Throw (UnsupportedCurrency "XXX"))
    by reflexivity.
  split; [exact H|].
  exact (proj2 (convert_error_taxonomy _ _ _ _ _ _ H)).
Defined.

(** ** Invalidation *)

(** X10. [AppService.invalidateCache] touches nothing but the cache, and
    after it no conversion is answered from memory: a call of [convert] that
    succeeds has made between one and three transport calls, the first at
    once, and a well-formed call made while the breaker refuses fails with
    the circuit-open error and changes nothing. *)
Theorem invalidateCache_forces_fetch (env : Env) (from to : string)
    (amount : AmountArg) (w : World) :
  let w0 := snd (AppService_invalidateCache w) in
  sameButCache w0 w
  /\ (forall r w1,
        convert env from to amount w0 = (Ok r, w1) ->
        (httpCalls w < httpCalls w1 <= httpCalls w + 3)%nat
        /\ exists rest, trace w1 = trace w ++ HttpGet :: rest)
  /\ (forall a,
        amount = Num a -> PrimFloat.leb a 0 = false ->
        noCode (getCurrencyCode env from) = false ->
        noCode (getCurrencyCode env to) = false ->
        rejects env w = true ->
        convert env from to amount w0 = (Throw CircuitOpen, w0)).
Proof.
  cbv zeta.
  set (w0 := snd (AppService_invalidateCache w)).
  assert (Hsame : sameButCache w0 w) by (repeat split).
  assert (Hnone : ratesEntry (cache w0) = None) by reflexivity.
  assert (Hempty : conversionEntries (cache w0) = []) by reflexivity.
  assert (Hmiss : forall key, cacheGetConversion key w0 = (Ok None, w0)).
  { intro key. unfold cacheGetConversion. rewrite Hempty. reflexivity. }
  assert (Hrej : rejects env w0 = rejects env w) by reflexivity.
  split; [exact Hsame|]. split.
  - intros r w1 H.
    destruct (convert_ok_cases _ _ _ _ _ _ _ H)
      as (a & _ & _ & _ & _ & [(Hhit & _)|(_ & Hcomputed)]).
    { rewrite Hmiss in Hhit. discriminate Hhit. }
    destruct Hcomputed as (rates & w' & rate & v & Hrates & _ & _ & _ & ->).
    rewrite getExchangeRates_miss in Hrates
      by (unfold cacheGetRates; rewrite Hnone; reflexivity).
    unfold fetchWithCircuitBreaker in Hrates.
    destruct (rejects env w0); [discriminate Hrates|].
    pose proof (fetchWithRetry_attempts env w0) as A. cbv zeta in A.
    destruct A as ((rest & Htrace) & Hcalls & _).
    destruct (fetchWithRetry env 3 1000 w0) as [[rs|e] w2]; cbn [snd] in *;
      [|discriminate Hrates].
    injection Hrates as _ <-.
    split; [exact Hcalls|]. exists rest. exact Htrace.
  - intros a -> Hguard Hfrom Hto Hrefuses.
    unfold convert. cbv zeta. rewrite Hguard, Hfrom, Hto.
    unfold bind at 1. rewrite Hmiss. unfold bind at 1.
    rewrite getExchangeRates_miss
      by (unfold cacheGetRates; rewrite Hnone; reflexivity).
    unfold fetchWithCircuitBreaker. rewrite Hrej, Hrefuses. reflexivity.
Qed.

(** After a conversion and an invalidation the same conversion goes to the
    provider again: two transport calls in all. *)
Lemma invalidateCache_forces_fetch_witness :
  httpCalls
    (run (mockEnv alwaysUp)
         (CallConvert "USD" "UAH" (Num 100) :: CallInvalidateCache
            :: CallConvert "USD" "UAH" (Num 100) :: nil)
         initialWorld)
  = 2%nat
  /\ (1 < 2 <= 1 + 3)%nat.
Proof.
  split; [vm_compute; reflexivity|].
  pose (w := snd (convert (mockEnv alwaysUp) "USD" "UAH" (Num 100)
                    initialWorld)).
  destruct (invalidateCache_forces_fetch (mockEnv alwaysUp) "USD" "UAH"
              (Num 100) w) as (_ & Hfetch & _).
  exact (proj1 (Hfetch (responseOf "USD" "UAH" 100 3750)
                  (snd (convert (mockEnv alwaysUp) "USD" "UAH" (Num 100)
                          (snd (AppService_invalidateCache w))))
                  ltac:(vm_compute; reflexivity))).
Defined.

(** X11. [CurrencyApiService.invalidateCache] drops the cached rates only:
    a conversion that was being answered from the cache is still answered
    from it, unchanged and without a transport call, although the rates it
    was computed from are gone. *)
Theorem rates_invalidation_keeps_conversions (env : Env) (from to : string)
    (amount : AmountArg) (w : World) (dto : ConvertResponseDto) :
  convert env from to amount w = (Ok dto, w) ->
  let w0 := snd (CurrencyApiService_invalidateCache w) in
  fst (cacheGetRates w0) = Ok None
  /\ convert env from to amount w0 = (Ok dto, w0).
Proof.
  intros H. cbv zeta. split; [reflexivity|].
  destruct (convert_ok_cases _ _ _ _ _ _ _ H)
    as (a & -> & Hguard & Hfrom & Hto & [(Hhit & _)|(_ & Hcomputed)]).
  - apply convert_hit; try assumption.
    revert Hhit. unfold cacheGetConversion, CurrencyApiService_invalidateCache.
    cbn [snd setCache cache conversionEntries clock].
    destruct (find _ (conversionEntries (cache w))) as [[[k d] x]|];
      intro Hhit; exact Hhit.
  - exfalso.
    destruct Hcomputed as (rates & w' & rate & v & Hrates & _ & _ & _ & Hw).
    destruct (getExchangeRates_cache env w) as (Hkept & _).
    rewrite Hrates in Hkept. cbn [snd] in Hkept.
    apply (f_equal (fun x => List.length (conversionEntries (cache x))))
      in Hw.
    unfold cachedIn, cacheSetConversion in Hw. simpl in Hw.
    rewrite Hkept in Hw. lia.
Qed.

(** A cached conversion outlives the rates it came from. *)
Lemma rates_invalidation_keeps_conversions_witness :
  fst (convert (mockEnv alwaysDown) "USD" "UAH" (Num 100)
         (snd (CurrencyApiService_invalidateCache
                 (snd (convert (mockEnv alwaysUp) "USD" "UAH" (Num 100)
                         initialWorld)))))
  = Ok (responseOf "USD" "UAH" 100 3750).
Proof.
  pose (w := snd (convert (mockEnv alwaysUp) "USD" "UAH" (Num 100)
                    initialWorld)).
  assert (H : convert (mockEnv alwaysDown) "USD" "UAH" (Num 100) w
              = (Ok (responseOf "USD" "UAH" 100 3750), w))
    by (vm_compute; reflexivity).
  destruct (rates_invalidation_keeps_conversions _ _ _ _ _ _ H)
    as (_ & Hstill).
  fold w. rewrite Hstill. reflexivity.
Defined.

(** ** The resolver and the engine *)

(** X12. For a pair with the base currency the direction does not matter
    to the resolver: converting into UAH and out of UAH resolve to the same
    record, which is a record of the snapshot quoting the foreign code
    against UAH; a record quoted the other way round is never the answer. *)
Theorem findRate_same_record_both_ways (rates : list MonobankRate) (code : Z) :
  findRate rates code UAH_CODE = findRate rates UAH_CODE code
  /\ (forall r,
        findRate rates code UAH_CODE = Some r ->
        In r rates /\ currencyCodeA r = code /\ currencyCodeB r = UAH_CODE).
Proof.
  rewrite !findRate_base by tauto.
  rewrite Z.eqb_refl.
  assert (Hleg : find (quotedInUah (if code =? UAH_CODE then UAH_CODE
                                    else code)) rates
                 = find (quotedInUah code) rates).
  { destruct (code =? UAH_CODE) eqn:E; [|reflexivity].
    apply Z.eqb_eq in E. now rewrite E. }
  rewrite Hleg. split; [reflexivity|].
  intros r Hr. apply find_some in Hr. destruct Hr as (Hin & Hq).
  apply quotedInUah_isLegOf in Hq. destruct Hq as (HA & HB).
  split; [exact Hin|]. split; assumption.
Qed.

Lemma usableOrOne_selected (a b : JS.optnum) (v : float) :
  JS.nullish a b = Some v -> JS.truthy v = true -> usableOrOne a b = v.
Proof.
  unfold JS.nullish, usableOrOne, JS.or_default, JS.or_else.
  destruct a as [x|].
  - intro H. injection H as ->. intro Ht. rewrite Ht, Ht. reflexivity.
  - intros -> Ht. rewrite Ht. reflexivity.
Qed.

Lemma getRequiredRate_truthy (rate : MonobankRate) (kind : RateType)
    (v : float) :
  getRequiredRate rate kind = Ok v ->
  JS.truthy v = true
  /\ match kind with
     | buy => JS.nullish (rateBuy rate) (rateCross rate)
     | sell => JS.nullish (rateSell rate) (rateCross rate)
     | cross => rateCross rate
     end = Some v.
Proof.
  unfold getRequiredRate.
  destruct (match kind with
            | buy => JS.nullish (rateBuy rate) (rateCross rate)
            | sell => JS.nullish (rateSell rate) (rateCross rate)
            | cross => rateCross rate
            end) as [x|]; [|discriminate].
  destruct (JS.truthy x) eqn:Hx; [|discriminate].
  intro H. injection H as <-. split; [exact Hx|reflexivity].
Qed.

(** X13. The engine with [getRequiredRate] refines the engine of the
    version without the conversion cache: whenever it returns a value, the
    earlier [calculateConversion], with its fallbacks to the cross rate and
    to 1, computes the same value from the same arguments; the newer one
    differs only in failing where the earlier one would fall back. *)
Theorem calculateConversion_refines_V1 (a : float) (rate : MonobankRate)
    (fromCode toCode : Z) (v : float) :
  calculateConversion a rate fromCode toCode = Ok v ->
  calculateConversionV1 a rate fromCode toCode = v.
Proof.
  unfold calculateConversion, calculateConversionV1.
  destruct (toCode =? UAH_CODE); [|destruct (fromCode =? UAH_CODE)];
    destruct (getRequiredRate rate _) as [r|e] eqn:Hr;
    intro H; try discriminate H; injection H as <-;
    destruct (getRequiredRate_truthy _ _ _ Hr) as (Ht & Hsel).
  - fold (usableOrOne (rateBuy rate) (rateCross rate)).
    now rewrite (usableOrOne_selected _ _ _ Hsel Ht).
  - fold (usableOrOne (rateSell rate) (rateCross rate)).
    now rewrite (usableOrOne_selected _ _ _ Hsel Ht).
  - unfold JS.or_default. rewrite Hsel, Ht. reflexivity.
Qed.

(** Both engines on 100 USD into UAH at the test fixture. *)
Lemma calculateConversion_refines_V1_witness :
  calculateConversion 100 usdLeg 840 980 = Ok 3750%float
  /\ calculateConversionV1 100 usdLeg 840 980 = 3750%float.
Proof.
  assert (H : calculateConversion 100 usdLeg 840 980 = Ok 3750%float)
    by reflexivity.
  split; [exact H|].
  exact (calculateConversion_refines_V1 _ _ _ _ _ H).
Defined.

(** ** What one call costs *)

(** X14. No call of a client, whatever it is and whatever the state of the
    cache, the breaker and the provider, makes more than three transport
    calls; none removes or reorders an event of the trace or turns the clock
    back. *)
Theorem call_transport_budget (env : Env) (w : World) (c : Call) :
  (httpCalls w <= httpCalls (step env w c) <= httpCalls w + 3)%nat
  /\ (exists more, trace (step env w c) = trace w ++ more)
  /\ clock w <= clock (step env w c).
Proof.
  pose proof (fetchWithCircuitBreaker_frame env w) as F. cbv zeta in F.
  destruct F as (_ & Fclock & Fcalls & (more & Ftrace)).
  destruct (step_world env w c)
    as [(dt & Hdt & ->)|[(H1 & H2 & H3 & _)|(H1 & H2 & H3 & _)]].
  - simpl. split; [lia|]. split; [|lia].
    exists []. now rewrite app_nil_r.
  - rewrite H1, H2, H3. split; [lia|]. split; [|lia].
    exists []. now rewrite app_nil_r.
  - rewrite H1, H2, H3. split; [lia|]. split; [|lia].
    exists more. exact Ftrace.
Qed.

(** ** Conversions on a cached snapshot *)

(** X15. While a snapshot is cached and not expired, a well-formed call of
    [convert] that misses the conversion cache is answered from that
    snapshot alone: the resolver and the engine decide the outcome, no
    transport call is made and the breaker is neither asked nor changed, so
    an open circuit and a provider that is down do not matter. *)
Theorem convert_on_cached_rates (env : Env) (from to : string) (a : float)
    (w : World) (rates : list MonobankRate) (expires : Z) :
  PrimFloat.leb a 0 = false ->
  noCode (getCurrencyCode env from) = false ->
  noCode (getCurrencyCode env to) = false ->
  fst (cacheGetConversion (getConversionCacheKey from to a) w) = Ok None ->
  ratesEntry (cache w) = Some (rates, expires) ->
  clock w < expires ->
  sameButCache (snd (convert env from to (Num a) w)) w
  /\ fst (convert env from to (Num a) w)
     = match findRate rates (codeOf (getCurrencyCode env from))
                            (codeOf (getCurrencyCode env to)) with
       | None => Throw (RateNotFound from to)
       | Some rate =>
           match calculateConversion a rate
                   (codeOf (getCurrencyCode env from))
                   (codeOf (getCurrencyCode env to)) with
           | Ok v => Ok (responseOf from to a v)
           | Throw e => Throw e
           end
       end.
Proof.
  intros Hguard Hfrom Hto Hmiss Hentry Hfresh.
  assert (Hrates : getExchangeRates env w = (Ok rates, w)).
  { unfold getExchangeRates, bind, cacheGetRates. rewrite Hentry.
    replace (clock w <? expires) with true
      by (symmetry; now apply Z.ltb_lt).
    reflexivity. }
  unfold convert. cbv zeta. rewrite Hguard, Hfrom, Hto.
  unfold bind, ret, throw.
  destruct (cacheGetConversion_cases (getConversionCacheKey from to a) w)
    as [(d & Hc)|Hc]; rewrite Hc in *; [discriminate Hmiss|].
  rewrite Hrates.
  destruct (findRate rates _ _) as [rate|];
    [|split; [apply sameButCache_refl|reflexivity]].
  destruct (calculateConversion a rate _ _) as [v|e];
    [|split; [apply sameButCache_refl|reflexivity]].
  split; [apply sameButCache_setCache|reflexivity].
Qed.

(** With the snapshot cached and the circuit open, 50 EUR into UAH is still
    converted. *)
Lemma convert_on_cached_rates_witness :
  fst (convert (mockEnv alwaysDown) "EUR" "UAH" (Num 50)
         (setBreaker 3 (Some 0) true
            (snd (getExchangeRates (mockEnv alwaysUp) initialWorld))))
  = Ok (responseOf "EUR" "UAH" 50 2050).
Proof.
  pose (w := setBreaker 3 (Some 0) true
               (snd (getExchangeRates (mockEnv alwaysUp) initialWorld))).
  destruct (convert_on_cached_rates (mockEnv alwaysDown) "EUR" "UAH" 50 w
              mockRates 300000 eq_refl eq_refl eq_refl eq_refl eq_refl eq_refl)
    as (_ & H).
  fold w. rewrite H. reflexivity.
Defined.

(** ** What a response echoes *)

Lemma sameConversionKey_symbols (k1 k2 : string * string * float) :
  sameConversionKey k1 k2 = true ->
  fst (fst k1) = fst (fst k2) /\ snd (fst k1) = snd (fst k2).
Proof.
  destruct k1 as [[f1 t1] a1], k2 as [[f2 t2] a2]. simpl.
  rewrite !andb_true_iff, !String.eqb_eq. tauto.
Qed.

Lemma getExchangeRates_echoes (env : Env) (w : World) :
  cacheEchoes w -> cacheEchoes (snd (getExchangeRates env w)).
Proof.
  unfold cacheEchoes.
  destruct (getExchangeRates_cache env w) as (-> & _). tauto.
Qed.

Lemma convert_echoes (env : Env) (from to : string) (amount : AmountArg)
    (w : World) :
  cacheEchoes w -> cacheEchoes (snd (convert env from to amount w)).
Proof.
  intros Hw. unfold convert.
  destruct amount as [a|]; [|exact Hw].
  destruct (PrimFloat.leb a 0); [exact Hw|]. cbv zeta.
  destruct (noCode (getCurrencyCode env from)); [exact Hw|].
  destruct (noCode (getCurrencyCode env to)); [exact Hw|].
  unfold bind, ret, throw.
  destruct (cacheGetConversion_cases (getConversionCacheKey from to a) w)
    as [(d & Hc)|Hc]; rewrite Hc; [exact Hw|].
  pose proof (getExchangeRates_echoes env w Hw) as Hrates.
  destruct (getExchangeRates env w) as [[rates|e] w1]; cbn [snd] in *;
    [|exact Hrates].
  destruct (findRate rates _ _) as [rate|]; [|exact Hrates].
  destruct (calculateConversion a rate _ _) as [v|e]; [|exact Hrates].
  unfold cacheEchoes, cacheSetConversion. simpl.
  constructor; [split; reflexivity|exact Hrates].
Qed.

Lemma step_echoes (env : Env) (w : World) (c : Call) :
  cacheEchoes w -> cacheEchoes (step env w c).
Proof.
  intros Hw. destruct c as [from to amount| | | |dt]; simpl.
  - now apply convert_echoes.
  - now apply getExchangeRates_echoes.
  - constructor.
  - exact Hw.
  - exact Hw.
Qed.

Lemma run_echoes (env : Env) (calls : list Call) :
  forall w, cacheEchoes w -> cacheEchoes (run env calls w).
Proof.
  induction calls as [|c calls IH]; intros w Hw; [exact Hw|].
  simpl. apply IH. now apply step_echoes.
Qed.

Lemma cacheGetConversion_entry (key : string * string * float) (w : World)
    (d : ConvertResponseDto) :
  fst (cacheGetConversion key w) = Ok (Some d) ->
  exists k x,
    In (k, d, x) (conversionEntries (cache w))
    /\ sameConversionKey k key = true.
Proof.
  unfold cacheGetConversion.
  destruct (find _ (conversionEntries (cache w))) as [[[k d'] x]|] eqn:Hfind;
    [|discriminate].
  simpl. intro H. injection H as ->.
  apply find_some in Hfind. destruct Hfind as (Hin & Hp).
  apply andb_true_iff in Hp. destruct Hp as (Hkey & _).
  exists k, x. split; [exact Hin|exact Hkey].
Qed.

(** X16. In a process that starts with an empty cache (or any cache whose
    conversions carry the symbols of their keys), after any sequence of
    calls every response of [convert], computed or cached, echoes the two
    symbols it was asked for in upper case. *)
Theorem responses_echo_symbols (env : Env) (calls : list Call) (w : World)
    (source target : string) (amount : AmountArg) (r : ConvertResponseDto) :
  cacheEchoes w ->
  fst (convert env source target amount (run env calls w)) = Ok r ->
  from r = toUpperCase source /\ to r = toUpperCase target.
Proof.
  intros Hw Hr.
  pose proof (run_echoes env calls w Hw) as Hechoes.
  set (w' := run env calls w) in *.
  assert (H : convert env source target amount w'
              = (Ok r, snd (convert env source target amount w'))).
  { rewrite <- Hr. apply surjective_pairing. }
  destruct (convert_ok_cases _ _ _ _ _ _ _ H)
    as (a & _ & _ & _ & _ & [(Hhit & _)|(_ & Hcomputed)]).
  - destruct (cacheGetConversion_entry _ _ _ Hhit) as (k & x & Hin & Hkey).
    unfold cacheEchoes in Hechoes. rewrite Forall_forall in Hechoes.
    destruct (Hechoes _ Hin) as (Hf & Ht). simpl in Hf, Ht.
    destruct (sameConversionKey_symbols _ _ Hkey) as (Kf & Kt).
    simpl in Kf, Kt. split; congruence.
  - destruct Hcomputed as (rates & w0 & rate & v & _ & _ & _ & -> & _).
    split; reflexivity.
Qed.

(** The lower-case request of the test suite, answered from the cache the
    upper-case request filled. *)
Lemma responses_echo_symbols_witness :
  cacheEchoes initialWorld
  /\ fst (convert (mockEnv alwaysUp) "usd" "uah" (Num 100)
            (run (mockEnv alwaysUp)
                 (CallConvert "USD" "UAH" (Num 100) :: nil) initialWorld))
     = Ok (responseOf "USD" "UAH" 100 3750)
  /\ from (responseOf "USD" "UAH" 100 3750) = toUpperCase "usd".
Proof.
  assert (Hw : cacheEchoes initialWorld) by constructor.
  assert (Hr : fst (convert (mockEnv alwaysUp) "usd" "uah" (Num 100)
                      (run (mockEnv alwaysUp)
                           (CallConvert "USD" "UAH" (Num 100) :: nil)
                           initialWorld))
               = Ok (responseOf "USD" "UAH" 100 3750))
    by (vm_compute; reflexivity).
  split; [exact Hw|]. split; [exact Hr|].
  exact (proj1 (responses_echo_symbols _ _ _ _ _ _ _ Hw Hr)).
Defined.

(** ** Pairs the snapshot cannot serve *)

(** X17. A call that reaches the resolver fails with rate-not-found (404),
    leaving the world as the fetch left it and caching no conversion, when
    the snapshot is empty, and also when both symbols are the base currency
    and the snapshot has no record quoting UAH against UAH: UAH is not
    converted into itself. *)
Theorem convert_rate_not_found (env : Env) (source target : string)
    (a : float) (fromCode toCode : Z) (w : World)
    (rates : list MonobankRate) (w1 : World) :
  reachesResolver env source target a fromCode toCode w rates w1 ->
  rates = []
  \/ (fromCode = UAH_CODE /\ toCode = UAH_CODE
      /\ Forall (fun r => ~ isLegOf UAH_CODE r) rates) ->
  convert env source target (Num a) w
  = (Throw (RateNotFound source target), w1)
  /\ getStatus (RateNotFound source target) = HttpStatus.NOT_FOUND.
Proof.
  intros Hreach Hcase. split; [|reflexivity].
  rewrite (convert_resolves _ _ _ _ _ _ _ _ _ Hreach).
  replace (findRate rates fromCode toCode) with (@None MonobankRate);
    [reflexivity|].
  symmetry. destruct Hcase as [->|(-> & -> & Hnone)].
  - unfold findRate. simpl.
    destruct ((fromCode =? UAH_CODE) || (toCode =? UAH_CODE)); reflexivity.
  - rewrite findRate_base by tauto. rewrite Z.eqb_refl.
    now apply find_no_leg.
Qed.

(** 100 UAH into UAH at the test fixture. *)
Lemma convert_rate_not_found_witness :
  reachesResolver (mockEnv alwaysUp) "UAH" "UAH" 100 980 980 initialWorld
    mockRates (snd (getExchangeRates (mockEnv alwaysUp) initialWorld))
  /\ fst (convert (mockEnv alwaysUp) "UAH" "UAH" (Num 100) initialWorld)
     = Throw (RateNotFound "UAH" "UAH").
Proof.
  assert (Hreach :
    reachesResolver (mockEnv alwaysUp) "UAH" "UAH" 100 980 980 initialWorld
      mockRates (snd (getExchangeRates (mockEnv alwaysUp) initialWorld)))
    by at_fixture.
  assert (Hnone : Forall (fun r => ~ isLegOf UAH_CODE r) mockRates).
  { unfold mockRates, isLegOf.
    repeat constructor; simpl; intros [H _]; discriminate H. }
  split; [exact Hreach|].
  destruct (convert_rate_not_found _ _ _ _ _ _ _ _ _ Hreach
              (or_intror (conj eq_refl (conj eq_refl Hnone)))) as (H & _).
  rewrite H. reflexivity.
Defined.
